(** * pyroomacoustics.datasets.base: metadata, samples and corpora

    A shallow embedding of [pyroomacoustics/datasets/base.py] and the
    properties of its metadata matching, corpus construction, filtering
    and indexing.

    Python objects are modelled as follows.
    - Values stored in metadata or given as criteria are strings, integers
      or lists of values ([value]); [py_eq] is Python's [==] on them.
    - A [dict] is an association list in insertion order, as Python's
      dictionaries are; a key is overwritten in place and a new key goes to
      the end.  Keyword arguments ([**kwargs]) are such a list too, in call
      order.
    - A [Meta] object is its instance namespace.  An attribute read looks
      at the data descriptors of the class, then at the namespace, then at
      the class; a field named like a method hides the method wherever the
      code reads it on the object ([sample.meta.match],
      [self.__getattribute__], [self.meta.__str__]).
    - A method called with [**kwargs] binds its own parameters first: a
      keyword named like one of them is a [TypeError].
    - Exceptions are the [Raise] branch of [result].
    - Corpora are mutable and live in a [heap] addressed by location; the
      methods of [CorpusBase] are state transformers over the heap that
      keep the heap they reached when they raise. *)

From stdpp Require Import base option list strings numbers.
From stdpp Require pretty.

Open Scope string_scope.
Open Scope list_scope.
Open Scope Z_scope.

(** ** Python values *)

Unset Elimination Schemes.
Inductive value : Type :=
| VStr (s : string)
| VInt (n : Z)
| VList (l : list value).
Set Elimination Schemes.

(** Induction over values, with the hypothesis on every element of a list. *)
Definition value_induction (P : value -> Prop)
    (HStr : forall s, P (VStr s))
    (HInt : forall n, P (VInt n))
    (HList : forall l, Forall P l -> P (VList l)) : forall v, P v :=
  fix go (v : value) : P v :=
    match v with
    | VStr s => HStr s
    | VInt n => HInt n
    | VList l =>
        HList l
          ((fix all (l : list value) : Forall P l :=
              match l with
              | [] => Forall_nil P
              | x :: l' => Forall_cons P x l' (go x) (all l')
              end) l)
    end.

(** Python's [==] on strings, integers and lists: values of different
    types are unequal, lists are compared element by element. *)
Fixpoint py_eq (a b : value) : bool :=
  match a, b with
  | VStr s, VStr t => String.eqb s t
  | VInt n, VInt m => Z.eqb n m
  | VList l, VList k =>
      (fix list_eq (l k : list value) : bool :=
         match l, k with
         | [], [] => true
         | x :: l', y :: k' => py_eq x y && list_eq l' k'
         | _, _ => false
         end) l k
  | _, _ => false
  end.

(** [a != b] *)
Definition py_ne (a b : value) : bool := negb (py_eq a b).

(** [a in l] for a list [l]: some element equals [a]. *)
Definition py_in (a : value) (l : list value) : bool :=
  existsb (fun x => py_eq x a) l.

(** [isinstance(v, list)] *)
Definition isinstance_list (v : value) : bool :=
  match v with VList _ => true | _ => false end.

(** The elements of a list value (empty for the other values). *)
Definition list_elems (v : value) : list value :=
  match v with VList l => l | _ => [] end.

(** Strings and integers have a hash, lists do not: only the former can be
    the key of a dictionary. *)
Definition hashable (v : value) : bool :=
  match v with VList _ => false | _ => true end.

(** ** Exceptions *)

Inductive exn : Type :=
| AttributeError (name : string)
| TypeError_unhashable
| TypeError_not_callable
| TypeError_multiple_values
| IndexError
| ValueError
| NameError (name : string)
| UnboundLocalError (name : string)
| DanglingReference.

Inductive result (A : Type) : Type :=
| Ok (a : A)
| Raise (e : exn).

Arguments Ok {A} a.
Arguments Raise {A} e.

(** ** Dictionaries *)

Section Dict.
Context {K V : Type} (eqb : K -> K -> bool).

(** [d[k]], [None] when the key is absent *)
Fixpoint dict_get (k : K) (d : list (K * V)) : option V :=
  match d with
  | [] => None
  | (k', v) :: d' => if eqb k' k then Some v else dict_get k d'
  end.

(** [k in d] *)
Definition dict_contains (k : K) (d : list (K * V)) : bool :=
  match dict_get k d with Some _ => true | None => false end.

(** [d[k] = v] *)
Fixpoint dict_set (k : K) (v : V) (d : list (K * V)) : list (K * V) :=
  match d with
  | [] => [(k, v)]
  | (k', v') :: d' =>
      if eqb k' k then (k', v) :: d' else (k', v') :: dict_set k v d'
  end.
End Dict.

Definition dict_keys {K V : Type} (d : list (K * V)) : list K := map fst d.
Definition dict_values {K V : Type} (d : list (K * V)) : list V := map snd d.

(** ** class Meta *)

(** The instance namespace [__dict__] of a [Meta] object.  Field names are
    the names stored there; the names bound on the class itself (its
    methods) are not field names. *)
Definition Meta : Type := list (string * value).

(** What an attribute lookup can give: a string, an integer or a list of
    such, or another object (a bound method, a class, a dictionary,
    [None]), which is equal to none of the former. *)
Inductive pyobject : Type :=
| Data (v : value)
| Other (what : string).

(** What the interpreter puts on the class besides the methods of its
    body: the name of the module, the docstring, and the other attributes
    that an instance finds on its class, those inherited from [object]. *)
Class Interpreter : Type :=
  { module_name : string;
    class_doc : string;
    object_attr : string -> option pyobject }.

(** The methods that the body of [class Meta] defines. *)
Definition Meta_methods : list string :=
  ["__init__"; "match"; "as_dict"; "__str__"; "__repr__"].

(** The data descriptors of the class, all from [object].  The class
    answers for these names before the instance namespace is looked at,
    and [__setattr__] stores no value of the metadata under them. *)
Definition data_descriptors : list string :=
  ["__class__"; "__dict__"; "__weakref__"].

Definition is_data_descriptor (key : string) : bool :=
  existsb (String.eqb key) data_descriptors.

(** The attribute of that name that an instance finds on its class. *)
Definition class_lookup `{Interpreter} (key : string) : option pyobject :=
  if existsb (String.eqb key) Meta_methods then Some (Other "bound method")
  else if String.eqb key "__module__" then Some (Data (VStr module_name))
  else if String.eqb key "__doc__" then Some (Data (VStr class_doc))
  else if is_data_descriptor key then Some (Other "data descriptor")
  else object_attr key.

Definition kwargs : Type := list (string * value).

(** [Meta.__init__]: every keyword argument becomes an attribute.  This is
    the namespace of the object when the constructor returns; it raises
    instead for the keywords in [not_stored]. *)
Definition Meta_init (attr : kwargs) : Meta :=
  fold_left (fun self kv => dict_set String.eqb (fst kv) (snd kv) self) attr [].

(** The keywords with which [Meta.__init__] raises: [self] is a second
    value for its parameter, a data descriptor refuses the value, and
    [__setattr__], once stored, hides the method that stores the next
    keyword. *)
Definition not_stored : list string :=
  "self" :: "__setattr__" :: data_descriptors.

(** The attribute access [self.key], which is [object.__getattribute__]:
    a data descriptor of the class, then the instance namespace, then the
    class. *)
Definition object_getattribute `{Interpreter} (self : Meta) (key : string)
  : result pyobject :=
  match (if is_data_descriptor key then None
         else dict_get String.eqb key self) with
  | Some v => Ok (Data v)
  | None =>
      match class_lookup key with
      | Some o => Ok o
      | None => Raise (AttributeError key)
      end
  end.

(** [self.__getattribute__(key)] as [Meta.match] writes it: the method is
    itself read on the object, where a field named [__getattribute__]
    hides it, and a field is not callable. *)
Definition getattribute `{Interpreter} (self : Meta) (key : string)
  : result pyobject :=
  match dict_get String.eqb "__getattribute__" self with
  | Some _ => Raise TypeError_not_callable
  | None => object_getattribute self key
  end.

(** The test of one criterion in [Meta.match]:
    [attr != val and not (isinstance(val, list) and attr in val)]. *)
Definition mismatch (attr val : value) : bool :=
  py_ne attr val && negb (isinstance_list val && py_in attr (list_elems val)).

(** The same test on any object: one that is no string, integer or list
    is unequal to the value and is no member of a list of values. *)
Definition obj_mismatch (attr : pyobject) (val : value) : bool :=
  match attr with
  | Data a => mismatch a val
  | Other _ => true
  end.

(** [Meta.match]: the body of the method. *)
Fixpoint Meta_match `{Interpreter} (self : Meta) (kw : kwargs) : result bool :=
  match kw with
  | [] => Ok true
  | (key, val) :: rest =>
      match getattribute self key with
      | Raise e => Raise e
      | Ok attr => if obj_mismatch attr val then Ok false else Meta_match self rest
      end
  end.

(** The call [meta.match] with keyword arguments: the attribute [match]
    is looked up on the object, where a field of that name hides the
    method and is not callable; then the keywords are bound, where [self]
    collides with the parameter of the method. *)
Definition call_match `{Interpreter} (meta : Meta) (kw : kwargs) : result bool :=
  match dict_get String.eqb "match" meta with
  | Some _ => Raise TypeError_not_callable
  | None =>
      if dict_contains String.eqb "self" kw then Raise TypeError_multiple_values
      else Meta_match meta kw
  end.

(** [Meta.as_dict]: a copy of the namespace. *)
Definition as_dict (self : Meta) : list (string * value) := self.

(** The call [meta.as_dict()]: the attribute [as_dict] is looked up on the
    object, where a field of that name hides the method. *)
Definition call_as_dict (meta : Meta) : result (list (string * value)) :=
  match dict_get String.eqb "as_dict" meta with
  | Some _ => Raise TypeError_not_callable
  | None => Ok (as_dict meta)
  end.

(** The object has a field of that name. *)
Definition has_field (self : Meta) (key : string) : Prop :=
  is_Some (dict_get String.eqb key self).

(** Every value of the metadata is hashable. *)
Definition Meta_hashable (self : Meta) : Prop :=
  Forall (fun kv => hashable (snd kv) = true) self.

(** No field name occurs twice, as in every dictionary. *)
Definition Meta_wf (self : Meta) : Prop := NoDup (dict_keys self).





(** ** class SampleBase, class AudioSample *)

(** The payload of an audio sample: a numpy array, of which the methods
    only read the shape. *)
Record ndarray : Type := { shape : list nat }.

Definition ndim (a : ndarray) : nat := length (shape a).

(** [a[:, None]]: a new axis of length one after the first. *)
Definition add_column_axis (a : ndarray) : ndarray :=
  match shape a with
  | [] => a
  | n :: rest => {| shape := n :: 1%nat :: rest |}
  end.

Section Samples.
(** The payload of a sample is opaque to the corpus. *)
Context {Data : Type}.

Record SampleBase : Type := { data : Data; meta : Meta }.

(** [SampleBase.__init__]: the sample when the constructor returns. *)
Definition SampleBase_init (d : Data) (kw : kwargs) : SampleBase :=
  {| data := d; meta := Meta_init kw |}.
End Samples.

Arguments SampleBase Data : clear implicits.

Record AudioSample : Type :=
  { base : SampleBase ndarray; fs : Z }.

(** [AudioSample.__init__] *)
Definition AudioSample_init (d : ndarray) (rate : Z) (kw : kwargs) : AudioSample :=
  {| base := SampleBase_init d kw; fs := rate |}.

(** What a call of [plot] does to the outside world. *)
Inductive effect : Type :=
| Stdout (msg : string)
| Specgram (channel : nat) (NFFT Fs noverlap : Z) (options : kwargs)
| Xlabel (s : string)
| Ylabel (s : string)
| Title (channel : nat).

(** The interpreter around the module: which optional packages can be
    imported, the import of the others raising [ImportError]. *)
Record environment : Type := { importable : string -> bool }.

(** The names bound at the top level of the module: its four classes.  It
    has no import statement at that level. *)
Definition module_globals : list string :=
  ["Meta"; "SampleBase"; "AudioSample"; "CorpusBase"].

(** Reading a global name of the module. *)
Definition load_global (name : string) : result unit :=
  if existsb (String.eqb name) module_globals then Ok tt
  else Raise (NameError name).

(** [AudioSample.plot], on what the call binds to its parameters [NFFT],
    [noverlap] and [kwargs].  The local [data] is bound only in the
    single-channel branch; [np] is read from the module's globals before
    the loop over the channels. *)
Definition plot (env : environment) (self : AudioSample) (NFFT noverlap : Z)
    (kw : kwargs) : result (list effect) :=
  if negb (importable env "matplotlib.pyplot") then
    Ok [Stdout "Warning: matplotlib is required for plotting"]
  else
    let local_data :=
      if Nat.eqb (ndim (data (base self))) 1
      then Some (add_column_axis (data (base self))) else None in
    match local_data with
    | None => Raise (UnboundLocalError "data")
    | Some d =>
        match shape d !! 1%nat with
        | None => Raise IndexError
        | Some nchannels =>
            match load_global "np" with
            | Raise e => Raise e
            | Ok _ =>
                Ok (flat_map
                      (fun c => [Specgram c NFFT (fs self) noverlap kw;
                                 Xlabel "Time [s]"; Ylabel "Frequency [Hz]";
                                 Title (S c)])
                      (seq 0 nchannels))
            end
        end
    end.

(** ** Indexing of Python lists *)

Inductive subscript : Type :=
| Index (i : Z)
| Slice (start stop step : option Z).

(** What [l[r]] is: one element for an index, a list for a slice. *)
Inductive item (A : Type) : Type :=
| One (x : A)
| Several (l : list A).

Arguments One {A} x.
Arguments Several {A} l.

(** A bound of a slice brought into the range of a list of length [n]. *)
Definition adjust_bound (n step b : Z) : Z :=
  if b <? 0 then
    (if b + n <? 0 then (if step <? 0 then -1 else 0) else b + n)
  else if n <=? b then (if step <? 0 then n - 1 else n)
  else b.

Definition slice_start (n step : Z) (start : option Z) : Z :=
  match start with
  | Some b => adjust_bound n step b
  | None => if step <? 0 then n - 1 else 0
  end.

Definition slice_stop (n step : Z) (stop : option Z) : Z :=
  match stop with
  | Some b => adjust_bound n step b
  | None => if step <? 0 then -1 else n
  end.

(** The number of positions a slice selects. *)
Definition slice_length (start stop step : Z) : Z :=
  if step <? 0 then
    (if stop <? start then (start - stop - 1) / (- step) + 1 else 0)
  else
    (if start <? stop then (stop - start - 1) / step + 1 else 0).

(** [count] elements from position [cur] on, [step] apart. *)
Fixpoint take_strided {A} (l : list A) (cur step : Z) (count : nat) : list A :=
  match count with
  | O => []
  | S count' =>
      match l !! Z.to_nat cur with
      | Some x => x :: take_strided l (cur + step) step count'
      | None => []
      end
  end.

(** [l[r]] on a list. *)
Definition list_getitem {A} (l : list A) (r : subscript) : result (item A) :=
  let n := Z.of_nat (length l) in
  match r with
  | Index i =>
      let i' := if i <? 0 then i + n else i in
      if (i' <? 0) || (n <=? i') then Raise IndexError
      else match l !! Z.to_nat i' with
           | Some x => Ok (One x)
           | None => Raise IndexError
           end
  | Slice start stop step =>
      let step' := default 1 step in
      if step' =? 0 then Raise ValueError
      else
        let a := slice_start n step' start in
        let b := slice_stop n step' stop in
        Ok (Several (take_strided l a step' (Z.to_nat (slice_length a b step'))))
  end.

(** ** class CorpusBase *)

Section Corpus.
Context {Data : Type} `{Interpreter}.

Abbreviation Sample := (SampleBase Data).

(** [info]: field name to (value to number of samples). *)
Definition index : Type := list (string * list (value * nat)).

Record CorpusBase : Type :=
  { samples : list Sample; info : index }.

(** [CorpusBase.__init__] *)
Definition CorpusBase_init : CorpusBase := {| samples := []; info := [] |}.

(** The count of a value goes up by one, from zero when it has no entry:
    [counts[val] = 1] or [counts[val] += 1]. *)
Definition increment (val : value) (counts : list (value * nat))
  : list (value * nat) :=
  match dict_get py_eq val counts with
  | None => dict_set py_eq val 1%nat counts
  | Some n => dict_set py_eq val (n + 1)%nat counts
  end.

(** The body of the loop of [add_sample], for one item of the metadata.
    A value without a hash stops it with a [TypeError] at the lookup
    [val not in self.info[key]], after the entry of the key was made. *)
Definition track_item (key : string) (val : value) (inf : index)
  : result unit * index :=
  let inf1 :=
    if dict_contains String.eqb key inf then inf
    else dict_set String.eqb key [] inf in
  let counts := default [] (dict_get String.eqb key inf1) in
  if negb (hashable val) then (Raise TypeError_unhashable, inf1)
  else (Ok tt, dict_set String.eqb key (increment val counts) inf1).

(** The loop of [add_sample] over the items of the metadata; what was
    written before an exception stays. *)
Fixpoint track_metadata (items : list (string * value)) (inf : index)
  : result unit * index :=
  match items with
  | [] => (Ok tt, inf)
  | (key, val) :: rest =>
      match track_item key val inf with
      | (Ok _, inf') => track_metadata rest inf'
      | (Raise e, inf') => (Raise e, inf')
      end
  end.

(** [add_sample] on the corpus object itself. *)
Definition add_sample_to (sample : Sample) (c : CorpusBase)
  : result unit * CorpusBase :=
  match track_metadata (meta sample) (info c) with
  | (Ok _, inf) => (Ok tt, {| samples := samples c ++ [sample]; info := inf |})
  | (Raise e, inf) => (Raise e, {| samples := samples c; info := inf |})
  end.

(** The outcome of the test of [add_sample_matching]: its keywords are
    bound, then [sample.meta.match] is called with them. *)
Definition matching_outcome (sample : Sample) (kw : kwargs) : result bool :=
  if dict_contains String.eqb "self" kw || dict_contains String.eqb "sample" kw
  then Raise TypeError_multiple_values
  else call_match (meta sample) kw.

(** [add_sample_matching] on the corpus object itself. *)
Definition add_sample_matching_to (sample : Sample) (kw : kwargs) (c : CorpusBase)
  : result unit * CorpusBase :=
  if dict_contains String.eqb "self" kw || dict_contains String.eqb "sample" kw
  then (Raise TypeError_multiple_values, c)
  else
    match call_match (meta sample) kw with
    | Raise e => (Raise e, c)
    | Ok true => add_sample_to sample c
    | Ok false => (Ok tt, c)
    end.

(** The loop of [filter] on the new corpus object itself. *)
Fixpoint add_all_matching_to (ss : list Sample) (kw : kwargs) (c : CorpusBase)
  : result unit * CorpusBase :=
  match ss with
  | [] => (Ok tt, c)
  | s :: ss' =>
      match add_sample_matching_to s kw c with
      | (Ok _, c') => add_all_matching_to ss' kw c'
      | (Raise e, c') => (Raise e, c')
      end
  end.

(** *** The heap of corpora and its monad *)

Abbreviation loc := nat.
Abbreviation heap := (list CorpusBase).

(** A computation that reads and writes the heap and may raise. *)
Definition M (A : Type) : Type := heap -> result A * heap.

Definition ret {A} (a : A) : M A := fun h => (Ok a, h).

Definition bind {A B} (m : M A) (k : A -> M B) : M B :=
  fun h =>
    match m h with
    | (Ok a, h') => k a h'
    | (Raise e, h') => (Raise e, h')
    end.

Definition raise {A} (e : exn) : M A := fun h => (Raise e, h).

(** Allocation of a new corpus object. *)
Definition alloc (c : CorpusBase) : M loc :=
  fun h => (Ok (length h), h ++ [c]).

Definition load (l : loc) : M CorpusBase :=
  fun h =>
    match h !! l with
    | Some c => (Ok c, h)
    | None => (Raise DanglingReference, h)
    end.

(** Runs a transformer of the object at [l] in place. *)
Definition update {A} (l : loc) (f : CorpusBase -> result A * CorpusBase) : M A :=
  fun h =>
    match h !! l with
    | Some c => let '(r, c') := f c in (r, <[l := c']> h)
    | None => (Raise DanglingReference, h)
    end.

(** Lifts a result that does not touch the heap. *)
Definition lift {A} (r : result A) : M A := fun h => (r, h).

(** [for x in l: body(x)] *)
Fixpoint for_each {A} (l : list A) (body : A -> M unit) : M unit :=
  match l with
  | [] => ret tt
  | x :: l' => bind (body x) (fun _ => for_each l' body)
  end.

(** *** The methods *)

(** [CorpusBase()] *)
Definition CorpusBase_new : M loc := alloc CorpusBase_init.

(** [self.add_sample(sample)] *)
Definition add_sample (self : loc) (sample : Sample) : M unit :=
  update self (add_sample_to sample).

(** [self.add_sample_matching] with a sample and keyword arguments: the
    keywords [self] and [sample] collide with the parameters of the
    method; then [sample.meta.match] is called with the keywords. *)
Definition add_sample_matching (self : loc) (sample : Sample) (kw : kwargs)
  : M unit :=
  if dict_contains String.eqb "self" kw || dict_contains String.eqb "sample" kw
  then raise TypeError_multiple_values
  else
    bind (lift (call_match (meta sample) kw))
         (fun matching => if matching then add_sample self sample else ret tt).

(** [self.filter] with its keyword arguments: the keyword [self] collides
    with the parameter of the method.  The loop runs over the samples of
    [self]; its body passes the keywords on to [add_sample_matching] and
    writes to the new corpus only. *)
Definition filter (self : loc) (kw : kwargs) : M loc :=
  if dict_contains String.eqb "self" kw then raise TypeError_multiple_values
  else
    bind (load self) (fun c =>
    bind CorpusBase_new (fun new_corpus =>
    bind (for_each (samples c)
            (fun s => add_sample_matching new_corpus s kw)) (fun _ =>
    ret new_corpus))).

(** [len(self)] *)
Definition len (self : loc) : M Z :=
  bind (load self) (fun c => ret (Z.of_nat (length (samples c)))).

(** [self[r]] *)
Definition getitem (self : loc) (r : subscript) : M (item Sample) :=
  bind (load self) (fun c => lift (list_getitem (samples c) r)).

(** *** Programs over corpora *)

(** The calls a client makes on corpora. *)
Inductive call : Type :=
| NewCorpus
| AddSample (self : loc) (sample : Sample)
| AddSampleMatching (self : loc) (sample : Sample) (kw : kwargs)
| Filter (self : loc) (kw : kwargs).

Definition run_call (c : call) : M unit :=
  match c with
  | NewCorpus => bind CorpusBase_new (fun _ => ret tt)
  | AddSample self sample => add_sample self sample
  | AddSampleMatching self sample kw => add_sample_matching self sample kw
  | Filter self kw => bind (filter self kw) (fun _ => ret tt)
  end.

(** The heap after a call; the client goes on after an exception. *)
Definition exec (c : call) (h : heap) : heap := snd (run_call c h).

(** The heap after a sequence of calls. *)
Definition run (cs : list call) (h : heap) : heap :=
  fold_left (fun h c => exec c h) cs h.

(** The metadata of the samples a call passes in is made of hashable
    values under distinct names. *)
Definition sample_wf (s : Sample) : Prop :=
  Meta_wf (meta s) /\ Meta_hashable (meta s).

(** The samples a call passes in. *)
Definition call_samples (c : call) : list Sample :=
  match c with
  | AddSample _ s | AddSampleMatching _ s _ => [s]
  | NewCorpus | Filter _ _ => []
  end.

Definition call_wf (c : call) : Prop := Forall sample_wf (call_samples c).

(** *** The tally of a list of samples *)

(** The metadata of the sample has field [f] with value [v]. *)
Definition has_value (f : string) (v : value) (s : Sample) : bool :=
  match dict_get String.eqb f (meta s) with
  | Some a => py_eq a v
  | None => false
  end.

(** The number of samples whose field [f] is [v]. *)
Definition count_samples (f : string) (v : value) (ss : list Sample) : nat :=
  length (List.filter (has_value f v) ss).

(** [sample.meta.match] with the keywords returns true. *)
Definition matches (kw : kwargs) (s : Sample) : bool :=
  match call_match (meta s) kw with
  | Ok true => true
  | _ => false
  end.

(** The number of samples that have a field [f]. *)
Definition count_field (f : string) (ss : list Sample) : nat :=
  length (List.filter (fun s => dict_contains String.eqb f (meta s)) ss).

(** The count the index holds for [(f, v)], zero when it has no entry. *)
Definition index_count (inf : index) (f : string) (v : value) : nat :=
  match dict_get String.eqb f inf with
  | Some counts => default 0%nat (dict_get py_eq v counts)
  | None => 0%nat
  end.

(** The sum of the counts the index holds for the values of [f]. *)
Definition sum_counts (inf : index) (f : string) : nat :=
  match dict_get String.eqb f inf with
  | Some counts => list_sum (dict_values counts)
  | None => 0%nat
  end.

(** The index has no field without a value and no value with count zero. *)
Definition index_wf (inf : index) : Prop :=
  forall f counts, dict_get String.eqb f inf = Some counts ->
    counts <> [] /\
    forall v n, dict_get py_eq v counts = Some n -> (1 <= n)%nat.

(** The index is the tally of the samples: the counts agree, and the index
    has no other entry. *)
Definition tally_exact (c : CorpusBase) : Prop :=
  (forall f v, index_count (info c) f v = count_samples f v (samples c)) /\
  index_wf (info c).

(** For every field, the counts of its values add up to the number of
    samples that have the field. *)
Definition field_sums_exact (c : CorpusBase) : Prop :=
  forall f, sum_counts (info c) f = count_field f (samples c).

(** What holds of every corpus that well-formed calls build. *)
Definition corpus_consistent (c : CorpusBase) : Prop :=
  tally_exact c /\ field_sums_exact c /\ Forall sample_wf (samples c).

(** The samples of the corpus have hashable metadata values. *)
Definition samples_hashable (c : CorpusBase) : Prop :=
  Forall (fun s => Meta_hashable (meta s)) (samples c).

(** The samples a call passes in have hashable metadata values. *)
Definition call_hashable (c : call) : Prop :=
  Forall (fun s => Meta_hashable (meta s)) (call_samples c).

(** The corpus that [add_sample] of the samples, one after the other, makes
    of a new corpus. *)
Definition rebuild (ss : list Sample) : CorpusBase :=
  fold_left (fun c s => snd (add_sample_to s c)) ss CorpusBase_init.
End Corpus.

Arguments CorpusBase Data : clear implicits.
Arguments M Data A : clear implicits.

Abbreviation loc := nat.
Abbreviation heap Data := (list (CorpusBase Data)).

(** ** String representations *)

(** The line feed. *)
Definition newline : string := String (Ascii.ascii_of_nat 10) EmptyString.

(** [r[:-1]] on a string: all its characters but the last. *)
Fixpoint str_drop_last (r : string) : string :=
  match r with
  | EmptyString => EmptyString
  | String a EmptyString => EmptyString
  | String a r' => String a (str_drop_last r')
  end.

Section Str.
(** Python's [repr] of a string (its quoting and escaping), which is not
    code of this module. *)
Variable repr_str : string -> string.

(** [repr(v)] *)
Fixpoint py_repr (v : value) : string :=
  match v with
  | VStr s => repr_str s
  | VInt n => pretty.pretty n
  | VList l => "[" +:+ String.concat ", " (map py_repr l) +:+ "]"
  end.

(** [str(v)], which is what ['{}'.format(v)] writes. *)
Definition py_str (v : value) : string :=
  match v with
  | VStr s => s
  | _ => py_repr v
  end.

(** The text of the line of one field in [Meta.__str__]. *)
Definition Meta_line (item : string * value) : string :=
  "    " +:+ fst item +:+ " : " +:+ py_str (snd item).

(** [Meta.__str__] *)
Definition Meta_str (self : Meta) : string :=
  str_drop_last
    (fold_left (fun r item => r +:+ (Meta_line item +:+ newline)) self
       ("Metadata:" +:+ newline)).

(** [SampleBase.__str__], given the string of the payload.  It calls
    [self.meta.__str__()], which reads the method on the metadata, where
    a field named [__str__] hides it. *)
Definition SampleBase_str {Data : Type} (data_str : Data -> string)
    (self : SampleBase Data) : result string :=
  let r := "Data : " +:+ data_str (data self) +:+ newline in
  match dict_get String.eqb "__str__" (meta self) with
  | Some _ => Raise TypeError_not_callable
  | None => Ok (r +:+ Meta_str (meta self))
  end.

(** The text of the line of a field and of the line of one of its values
    in [CorpusBase.__str__]. *)
Definition field_line (field : string) (values : list (value * nat)) : string :=
  "  " +:+ field +:+ " (" +:+ pretty.pretty (length values) +:+ ") :".

Definition value_line (item : value * nat) : string :=
  "      * " +:+ py_str (fst item) +:+ " occurs " +:+ pretty.pretty (snd item) +:+ " times".

(** [CorpusBase.__str__] *)
Definition CorpusBase_str {Data : Type} (self : CorpusBase Data) : string :=
  str_drop_last
    (fold_left
       (fun r entry =>
          fold_left (fun r item => r +:+ (value_line item +:+ newline))
            (snd entry)
            (r +:+ (field_line (fst entry) (snd entry) +:+ newline)))
       (info self)
       (("The dataset contains " +:+ pretty.pretty (length (samples self))
           +:+ " samples.") +:+ newline)).

(** The lines of [CorpusBase.__str__] after the first. *)
Definition index_lines (inf : index) : list string :=
  flat_map (fun entry => field_line (fst entry) (snd entry)
                         :: map value_line (snd entry)) inf.
End Str.

(** ** The corpus of the module's documentation *)

Module Example.

(** An interpreter: the module imported under its name, the docstring of
    the class as the source has it, and the methods of [object] in
    CPython 3.11. *)
#[local] Instance cpython : Interpreter :=
  {| module_name := "pyroomacoustics.datasets.base";
     class_doc := "
    A simple class that will take a dictionary as input
    and put the values in attributes named after the keys.
    We use it to store metadata for the samples

    The parameters can be any set of keyword arguments.
    They will all be transformed into attribute of the object.

    Methods:
    --------
    match:
        This method takes any number of keyword arguments
        and will return True if they all match exactly similarly
        named attributes of the object. If some keys are missing,
        an error will be raised. Omitted keys will be ignored.
    as_dict:
        Returns a dictionary representation of the object
    ";
     object_attr := fun key =>
       if existsb (String.eqb key)
            ["__delattr__"; "__dir__"; "__eq__"; "__format__"; "__ge__";
             "__getattribute__"; "__getstate__"; "__gt__";
             "__hash__"; "__init_subclass__"; "__le__"; "__lt__"; "__ne__";
             "__new__"; "__reduce__"; "__reduce_ex__"; "__setattr__";
             "__sizeof__"; "__subclasshook__"]
       then Some (Other "attribute of object") else None |}.

Definition alice_one : SampleBase string :=
  SampleBase_init "0.99"
    [("speaker", VStr "alice"); ("sex", VStr "female"); ("age", VInt 37);
     ("number", VStr "one")].

Definition alice_two : SampleBase string :=
  SampleBase_init "2.1"
    [("speaker", VStr "alice"); ("sex", VStr "female"); ("age", VInt 37);
     ("number", VStr "two")].

Definition bob_one : SampleBase string :=
  SampleBase_init "1.02"
    [("speaker", VStr "bob"); ("sex", VStr "male"); ("age", VInt 48);
     ("number", VStr "one")].

Definition bob_two : SampleBase string :=
  SampleBase_init "2.07"
    [("speaker", VStr "bob"); ("sex", VStr "male"); ("age", VInt 48);
     ("number", VStr "two")].

Definition all_samples : list (SampleBase string) :=
  [alice_one; alice_two; bob_one; bob_two].

(** [corpus = CorpusBase()], then [corpus.add_sample] of the four samples. *)
Definition build : list (@call string) :=
  NewCorpus :: map (AddSample 0%nat) all_samples.

(** ... and then [corpus.filter(sex='male')]. *)
Definition build_and_filter : list (@call string) :=
  build ++ [Filter 0%nat [("sex", VStr "male")]].

(** Two samples that do not have the same fields. *)
Definition only_speaker : SampleBase string :=
  SampleBase_init "0.5" [("speaker", VStr "carol")].

Definition only_age : SampleBase string :=
  SampleBase_init "0.7" [("age", VInt 20)].

Definition build_mixed : list (@call string) :=
  [NewCorpus; AddSample 0%nat only_speaker; AddSample 0%nat only_age].

(** The corpora these calls leave in the heap. *)
Definition built : CorpusBase string :=
  Eval vm_compute in default CorpusBase_init (run build [] !! 0%nat).

Definition filtered : CorpusBase string :=
  Eval vm_compute in default CorpusBase_init (run build_and_filter [] !! 1%nat).

Definition mixed : CorpusBase string :=
  Eval vm_compute in default CorpusBase_init (run build_mixed [] !! 0%nat).

(** A corpus made of the two samples of bob alone. *)
Definition build_male : list (@call string) :=
  NewCorpus :: map (AddSample 0%nat) [bob_one; bob_two].

Definition male : CorpusBase string :=
  Eval vm_compute in default CorpusBase_init (run build_male [] !! 0%nat).

(** An audio sample of one channel and one of two channels. *)
Definition mono : AudioSample :=
  AudioSample_init {| shape := [8%nat] |} 16000 [("speaker", VStr "alice")].

Definition stereo : AudioSample :=
  AudioSample_init {| shape := [8%nat; 2%nat] |} 16000 [("speaker", VStr "bob")].

(** An interpreter with the optional packages installed. *)
Definition all_installed : environment := {| importable := fun _ => true |}.

End Example.

(** * Properties *)

(** The properties of this part hold whatever the interpreter binds on the
    class. *)
Section Properties.
Context {python : Interpreter}.

(** ** Values and dictionaries *)

Lemma py_eq_spec (a b : value) : py_eq a b = true <-> a = b.
Proof.
  revert b. induction a as [s | n | l IH] using value_induction; intros [t | m | k]; simpl;
    try (split; [discriminate | congruence]).
  - rewrite String.eqb_eq. split; congruence.
  - rewrite Z.eqb_eq. split; congruence.
  - revert k. induction IH as [| x l' Hx _ IHl]; intros [| y k'];
      try (split; [discriminate | congruence]).
    + split; reflexivity.
    + rewrite andb_true_iff, Hx, IHl. split.
      * intros [-> E]. congruence.
      * intros E. injection E as -> ->. split; reflexivity.
Qed.


Lemma py_eq_false (a b : value) : py_eq a b = false <-> a <> b.
Proof.
  rewrite <- py_eq_spec. destruct (py_eq a b); split; congruence.
Qed.






(** ** Meta.match *)

Lemma Meta_match_cons (self : Meta) (key : string) (val : value) (rest : kwargs) :
  Meta_match self ((key, val) :: rest) =
  match getattribute self key with
  | Raise e => Raise e
  | Ok attr => if obj_mismatch attr val then Ok false else Meta_match self rest
  end.
Proof. reflexivity. Qed.

Lemma is_data_descriptor_In (key : string) :
  is_data_descriptor key = true <-> In key data_descriptors.
Proof.
  unfold is_data_descriptor. rewrite existsb_exists. split.
  - intros (x & Hin & E). apply String.eqb_eq in E. subst x. exact Hin.
  - intros Hin. exists key. split; [exact Hin | apply String.eqb_refl].
Qed.

Lemma class_lookup_data_descriptor (key : string) :
  is_data_descriptor key = true ->
  class_lookup key = Some (Other "data descriptor").
Proof.
  intros H. apply is_data_descriptor_In in H.
  destruct H as [<- | [<- | [<- | []]]]; reflexivity.
Qed.

Lemma class_lookup_None (key : string) :
  class_lookup key = None -> is_data_descriptor key = false.
Proof.
  intros H. destruct (is_data_descriptor key) eqn:E; [| reflexivity].
  rewrite (class_lookup_data_descriptor _ E) in H. discriminate.
Qed.






(** With a field named [__getattribute__] the first turn of the loop
    raises. *)
Lemma Meta_match_hidden (self : Meta) (kw : kwargs) (v : value) :
  dict_get String.eqb "__getattribute__" self = Some v ->
  Meta_match self kw =
  match kw with [] => Ok true | _ :: _ => Raise TypeError_not_callable end.
Proof.
  intros Hg. destruct kw as [| [key val] rest]; [reflexivity |].
  rewrite Meta_match_cons. unfold getattribute. rewrite Hg. reflexivity.
Qed.

(** The key of a field is read without error: as the field or, under the
    name of a data descriptor, from the class. *)
Lemma getattribute_has_field (self : Meta) (key : string) :
  dict_get String.eqb "__getattribute__" self = None ->
  has_field self key -> exists o, getattribute self key = Ok o.
Proof.
  intros Hg [attr E]. unfold getattribute, object_getattribute. rewrite Hg.
  destruct (is_data_descriptor key) eqn:Hd.
  - rewrite (class_lookup_data_descriptor _ Hd). eauto.
  - rewrite E. eauto.
Qed.

(** The lookup raises for the names that neither the object nor its class
    binds, and the error names the key. *)
Lemma getattribute_raise (self : Meta) (key : string) (e : exn) :
  dict_get String.eqb "__getattribute__" self = None ->
  getattribute self key = Raise e <->
  e = AttributeError key /\
  dict_get String.eqb key self = None /\ class_lookup key = None.
Proof.
  intros Hg. unfold getattribute, object_getattribute. rewrite Hg.
  destruct (is_data_descriptor key) eqn:Hd.
  { rewrite (class_lookup_data_descriptor _ Hd).
    split; [discriminate | intros (_ & _ & E); discriminate]. }
  destruct (dict_get String.eqb key self) as [a |].
  - split; [discriminate | intros (_ & E & _); discriminate].
  - destruct (class_lookup key) as [o |].
    + split; [discriminate | intros (_ & _ & E); discriminate].
    + split; [intros [= <-]; auto | intros (-> & _); reflexivity].
Qed.





(** When [Meta.match] raises the lookup error: at the first key that
    neither the object nor its class binds, if all the criteria before it
    were accepted. *)
Lemma Meta_match_raise_lookup (self : Meta) (kw : kwargs) (e : exn) :
  dict_get String.eqb "__getattribute__" self = None ->
  Meta_match self kw = Raise e <->
  exists before key val after,
    kw = before ++ (key, val) :: after /\
    e = AttributeError key /\
    dict_get String.eqb key self = None /\
    class_lookup key = None /\
    Forall (fun kv => exists attr,
              getattribute self (fst kv) = Ok attr /\
              obj_mismatch attr (snd kv) = false) before.
Proof.
  intros Hg. induction kw as [| [key val] rest IH].
  - split; [discriminate |].
    intros (before & k & v & after & E & _). destruct before; discriminate.
  - rewrite Meta_match_cons. split.
    + destruct (getattribute self key) as [attr | e0] eqn:Hget.
      * destruct (obj_mismatch attr val) eqn:Hm; [discriminate |].
        intros H0. apply IH in H0.
        destruct H0 as (before & k & v & after & -> & -> & Hk & Hc & Hall).
        exists ((key, val) :: before), k, v, after.
        repeat split; try assumption. constructor; [| exact Hall].
        exists attr. split; assumption.
      * intros [= <-]. apply (getattribute_raise _ _ _ Hg) in Hget.
        destruct Hget as (-> & Hk & Hc).
        exists [], key, val, rest.
        repeat split; [exact Hk | exact Hc | constructor].
    + intros (before & k & v & after & E & -> & Hk & Hc & Hall).
      destruct before as [| [k0 v0] before']; simpl in E.
      * injection E as -> -> ->.
        rewrite (proj2 (getattribute_raise self k (AttributeError k) Hg));
          [reflexivity | auto].
      * injection E as -> -> ->.
        inversion Hall as [| ? ? (attr & Hget & Hm) Hall']; subst.
        simpl in Hget, Hm. rewrite Hget, Hm. apply IH.
        exists before', k, v, after. repeat split; assumption.
Qed.

(** When [Meta.match] raises: with criteria and a field named
    [__getattribute__], the [TypeError] of calling the field; else the
    lookup error, at the first key that neither the object nor its class
    binds, if all the criteria before it were accepted. *)
Lemma Meta_match_raise (self : Meta) (kw : kwargs) (e : exn) :
  Meta_match self kw = Raise e <->
  (has_field self "__getattribute__" /\ kw <> [] /\
   e = TypeError_not_callable) \/
  (~ has_field self "__getattribute__" /\
   exists before key val after,
     kw = before ++ (key, val) :: after /\
     e = AttributeError key /\
     dict_get String.eqb key self = None /\
     class_lookup key = None /\
     Forall (fun kv => exists attr,
               getattribute self (fst kv) = Ok attr /\
               obj_mismatch attr (snd kv) = false) before).
Proof.
  unfold has_field.
  destruct (dict_get String.eqb "__getattribute__" self) as [v |] eqn:Hg.
  - rewrite (Meta_match_hidden _ _ _ Hg). split.
    + destruct kw; [discriminate |]. intros [= <-]. left.
      split; [eexists; reflexivity | split; [discriminate | reflexivity]].
    + intros [(_ & Hkw & ->) | (Hno & _)].
      * destruct kw; [contradiction | reflexivity].
      * exfalso. apply Hno. eexists. reflexivity.
  - rewrite (Meta_match_raise_lookup _ _ _ Hg). split.
    + intros H0. right. split; [intros [v Hv]; discriminate | exact H0].
    + intros [([v Hv] & _) | (_ & H0)]; [discriminate | exact H0].
Qed.

(** ** Dictionaries *)

Section DictFacts.
Context {K V : Type} (eqb : K -> K -> bool).
Hypothesis eqb_spec : forall a b, eqb a b = true <-> a = b.

Lemma eqb_false (a b : K) : eqb a b = false <-> a <> b.
Proof. rewrite <- eqb_spec. destruct (eqb a b); split; congruence. Qed.

Lemma dict_get_set_eq (k : K) (v : V) (d : list (K * V)) :
  dict_get eqb k (dict_set eqb k v d) = Some v.
Proof.
  induction d as [| [k' v'] d IH]; simpl.
  - rewrite (proj2 (eqb_spec k k) eq_refl). reflexivity.
  - destruct (eqb k' k) eqn:E; simpl; rewrite E; [reflexivity | exact IH].
Qed.

Lemma dict_get_set_ne (k k' : K) (v : V) (d : list (K * V)) :
  k <> k' -> dict_get eqb k' (dict_set eqb k v d) = dict_get eqb k' d.
Proof.
  intros Hne. induction d as [| [k0 v0] d IH]; simpl.
  - rewrite (proj2 (eqb_false k k') Hne). reflexivity.
  - destruct (eqb k0 k) eqn:E; simpl.
    + apply eqb_spec in E. subst k0.
      rewrite (proj2 (eqb_false k k') Hne). reflexivity.
    + destruct (eqb k0 k'); [reflexivity | exact IH].
Qed.

Lemma dict_set_not_nil (k : K) (v : V) (d : list (K * V)) :
  dict_set eqb k v d <> [].
Proof. destruct d as [| [k' v'] d]; simpl; [| destruct (eqb k' k)]; discriminate. Qed.

Lemma dict_get_In (k : K) (v : V) (d : list (K * V)) :
  dict_get eqb k d = Some v -> In (k, v) d.
Proof.
  induction d as [| [k' v'] d IH]; simpl; [discriminate |].
  destruct (eqb k' k) eqn:E.
  - apply eqb_spec in E. intros [= ->]. left. congruence.
  - intros H. right. apply IH, H.
Qed.

Lemma dict_get_None (k : K) (d : list (K * V)) :
  dict_get eqb k d = None <-> ~ In k (dict_keys d).
Proof.
  induction d as [| [k' v'] d IH]; simpl.
  - split; [intros _ [] | reflexivity].
  - destruct (eqb k' k) eqn:E.
    + apply eqb_spec in E. split; [discriminate | intros H; exfalso; auto].
    + apply eqb_false in E. rewrite IH. split.
      * intros H [H' | H']; auto.
      * intros H H'. apply H. right. exact H'.
Qed.

Lemma dict_set_keys_In (k x : K) (v : V) (d : list (K * V)) :
  In x (dict_keys (dict_set eqb k v d)) -> x = k \/ In x (dict_keys d).
Proof.
  induction d as [| [k' v'] d IH]; simpl.
  - intros [<- | []]. left. reflexivity.
  - destruct (eqb k' k); simpl.
    + intros H. right. exact H.
    + intros [<- | H]; [right; left; reflexivity |].
      destruct (IH H) as [-> | H']; [left; reflexivity | right; right; exact H'].
Qed.

Lemma dict_set_NoDup (k : K) (v : V) (d : list (K * V)) :
  NoDup (dict_keys d) -> NoDup (dict_keys (dict_set eqb k v d)).
Proof.
  induction d as [| [k' v'] d IH]; simpl; intros Hnd.
  - apply NoDup_singleton.
  - inversion Hnd as [| ? ? Hnotin Hnd']; subst.
    destruct (eqb k' k) eqn:E; simpl.
    + exact Hnd.
    + apply NoDup_cons_2; [| exact (IH Hnd')].
      rewrite list_elem_of_In. intros Hin.
      destruct (dict_set_keys_In _ _ _ _ Hin) as [-> | Hin'].
      * rewrite (proj2 (eqb_spec k k) eq_refl) in E. discriminate.
      * apply Hnotin. rewrite list_elem_of_In. exact Hin'.
Qed.

Lemma dict_set_Forall_values (P : V -> Prop) (k : K) (v : V) (d : list (K * V)) :
  P v -> Forall (fun kv => P (snd kv)) d ->
  Forall (fun kv => P (snd kv)) (dict_set eqb k v d).
Proof.
  intros Hv. induction 1 as [| [k' v'] d Hv' Hd IH]; simpl.
  - constructor; [exact Hv | constructor].
  - destruct (eqb k' k); constructor; assumption.
Qed.
End DictFacts.

Section DictCounts.
Context {K : Type} (eqb : K -> K -> bool).

(** Writing a count changes the sum of the counts by the difference. *)
Lemma list_sum_dict_set (k : K) (n : nat) (d : list (K * nat)) :
  (list_sum (dict_values (dict_set eqb k n d)) + default 0 (dict_get eqb k d)
   = list_sum (dict_values d) + n)%nat.
Proof.
  unfold dict_values. induction d as [| [k' n'] d IH]; simpl.
  - lia.
  - destruct (eqb k' k) eqn:E; simpl; [lia |]. lia.
Qed.
End DictCounts.

(** ** Construction of metadata *)

Lemma Meta_init_wf (attr : kwargs) : Meta_wf (Meta_init attr).
Proof.
  unfold Meta_init, Meta_wf.
  assert (H : forall acc : Meta, NoDup (dict_keys acc) ->
            NoDup (dict_keys
                     (fold_left (fun self kv =>
                                   dict_set String.eqb (fst kv) (snd kv) self)
                                attr acc))).
  { induction attr as [| [k v] attr IH]; intros acc Hacc; simpl.
    - exact Hacc.
    - apply IH, (dict_set_NoDup String.eqb String.eqb_eq), Hacc. }
  apply H. constructor.
Qed.

Lemma Meta_init_hashable (attr : kwargs) :
  Forall (fun kv => hashable (snd kv) = true) attr ->
  Meta_hashable (Meta_init attr).
Proof.
  unfold Meta_init, Meta_hashable. intros Hattr.
  assert (H : forall acc : Meta,
            Forall (fun kv => hashable (snd kv) = true) acc ->
            Forall (fun kv => hashable (snd kv) = true)
                   (fold_left (fun self kv =>
                                 dict_set String.eqb (fst kv) (snd kv) self)
                              attr acc)).
  { induction Hattr as [| [k v] attr Hv _ IH]; intros acc Hacc; simpl.
    - exact Hacc.
    - apply IH.
      apply (dict_set_Forall_values String.eqb (fun v => hashable v = true));
        assumption. }
  apply H. constructor.
Qed.

(** A sample made by the constructor from hashable values is well formed. *)
Lemma SampleBase_init_wf {Data : Type} (d : Data) (kw : kwargs) :
  Forall (fun kv => hashable (snd kv) = true) kw ->
  sample_wf (SampleBase_init d kw).
Proof.
  intros H. split; simpl; [apply Meta_init_wf | apply Meta_init_hashable, H].
Qed.

(** ** The index of a corpus *)

Section IndexFacts.
Context {Data : Type}.
Implicit Types (inf : index) (c : CorpusBase Data) (s : SampleBase Data).

Lemma index_count_alt inf (f : string) (v : value) :
  index_count inf f v =
  default 0%nat (dict_get py_eq v (default [] (dict_get String.eqb f inf))).
Proof. unfold index_count. destruct (dict_get String.eqb f inf); reflexivity. Qed.

Lemma sum_counts_alt inf (f : string) :
  sum_counts inf f =
  list_sum (dict_values (default [] (dict_get String.eqb f inf))).
Proof. unfold sum_counts. destruct (dict_get String.eqb f inf); reflexivity. Qed.

Lemma increment_get (val v : value) (counts : list (value * nat)) :
  dict_get py_eq v (increment val counts) =
  if py_eq val v
  then Some (default 0 (dict_get py_eq val counts) + 1)%nat
  else dict_get py_eq v counts.
Proof.
  unfold increment. destruct (py_eq val v) eqn:E.
  - apply py_eq_spec in E. subst v.
    destruct (dict_get py_eq val counts); simpl;
      apply (dict_get_set_eq py_eq py_eq_spec).
  - apply py_eq_false in E.
    destruct (dict_get py_eq val counts);
      apply (dict_get_set_ne py_eq py_eq_spec); exact E.
Qed.

Lemma increment_sum (val : value) (counts : list (value * nat)) :
  list_sum (dict_values (increment val counts)) =
  (list_sum (dict_values counts) + 1)%nat.
Proof.
  unfold increment.
  destruct (dict_get py_eq val counts) as [n |] eqn:E.
  - pose proof (list_sum_dict_set py_eq val (n + 1) counts) as H.
    rewrite E in H. simpl in H. lia.
  - pose proof (list_sum_dict_set py_eq val 1 counts) as H.
    rewrite E in H. simpl in H. lia.
Qed.

Lemma increment_not_nil (val : value) (counts : list (value * nat)) :
  increment val counts <> [].
Proof.
  unfold increment. destruct (dict_get py_eq val counts); apply dict_set_not_nil.
Qed.

(** The entries of the index after one item. *)
Lemma track_item_get (key : string) (val : value) inf inf' (f : string) :
  track_item key val inf = (Ok tt, inf') ->
  dict_get String.eqb f inf' =
  if String.eqb key f
  then Some (increment val (default [] (dict_get String.eqb key inf)))
  else dict_get String.eqb f inf.
Proof.
  unfold track_item. destruct (negb (hashable val)); [discriminate |].
  intros [= <-]. unfold dict_contains.
  destruct (String.eqb key f) eqn:E.
  - apply String.eqb_eq in E. subst f.
    rewrite (dict_get_set_eq String.eqb String.eqb_eq).
    destruct (dict_get String.eqb key inf) as [counts |] eqn:G.
    + rewrite G. reflexivity.
    + rewrite (dict_get_set_eq String.eqb String.eqb_eq). reflexivity.
  - apply (eqb_false String.eqb String.eqb_eq) in E.
    rewrite (dict_get_set_ne String.eqb String.eqb_eq) by exact E.
    destruct (dict_get String.eqb key inf); [reflexivity |].
    apply (dict_get_set_ne String.eqb String.eqb_eq). exact E.
Qed.

Lemma track_item_hashable (key : string) (val : value) inf :
  hashable val = true ->
  exists inf', track_item key val inf = (Ok tt, inf').
Proof.
  intros H. unfold track_item. rewrite H. simpl. eexists. reflexivity.
Qed.

Lemma track_item_ok_inv (key : string) (val : value) inf inf' :
  track_item key val inf = (Ok tt, inf') -> hashable val = true.
Proof.
  unfold track_item. destruct (hashable val); [reflexivity | discriminate].
Qed.

Lemma track_item_raise (key : string) (val : value) inf inf' (e : exn) :
  track_item key val inf = (Raise e, inf') -> e = TypeError_unhashable.
Proof.
  unfold track_item. destruct (negb (hashable val)); [| discriminate].
  intros [= <- _]. reflexivity.
Qed.

Lemma track_item_count (key : string) (val : value) inf inf' (f : string) (v : value) :
  track_item key val inf = (Ok tt, inf') ->
  index_count inf' f v =
  (index_count inf f v + if String.eqb key f && py_eq val v then 1 else 0)%nat.
Proof.
  intros H. rewrite !index_count_alt, (track_item_get _ _ _ _ f H).
  destruct (String.eqb key f) eqn:E; simpl; [| lia].
  apply String.eqb_eq in E. subst f.
  rewrite increment_get. destruct (py_eq val v) eqn:Ev; simpl; [| lia].
  apply py_eq_spec in Ev. subst v. reflexivity.
Qed.

Lemma track_item_sum (key : string) (val : value) inf inf' (f : string) :
  track_item key val inf = (Ok tt, inf') ->
  sum_counts inf' f =
  (sum_counts inf f + if String.eqb key f then 1 else 0)%nat.
Proof.
  intros H. rewrite !sum_counts_alt, (track_item_get _ _ _ _ f H).
  destruct (String.eqb key f) eqn:E; simpl; [| lia].
  apply String.eqb_eq in E. subst f. apply increment_sum.
Qed.

Lemma track_item_wf (key : string) (val : value) inf inf' :
  track_item key val inf = (Ok tt, inf') -> index_wf inf -> index_wf inf'.
Proof.
  intros H Hwf f counts. rewrite (track_item_get _ _ _ _ f H).
  destruct (String.eqb key f) eqn:E; [| apply Hwf].
  intros [= <-]. split; [apply increment_not_nil |].
  intros v n. rewrite increment_get.
  destruct (py_eq val v); [intros [= <-]; lia |].
  destruct (dict_get String.eqb key inf) as [old |] eqn:G; simpl.
  - apply (Hwf key old G).
  - discriminate.
Qed.

(** The index after the whole loop of [add_sample], on metadata with
    distinct names and hashable values. *)
Lemma track_metadata_ok (items : Meta) inf :
  Meta_wf items -> Meta_hashable items ->
  exists inf',
    track_metadata items inf = (Ok tt, inf') /\
    (forall f v,
        index_count inf' f v =
        (index_count inf f v +
         if match dict_get String.eqb f items with
            | Some a => py_eq a v
            | None => false
            end then 1 else 0)%nat) /\
    (forall f,
        sum_counts inf' f =
        (sum_counts inf f + if dict_contains String.eqb f items then 1 else 0)%nat) /\
    (index_wf inf -> index_wf inf').
Proof.
  unfold Meta_wf, Meta_hashable. intros Hnd Hh. revert inf.
  induction Hh as [| [key val] rest Hval _ IH]; intros inf.
  - exists inf. split; [reflexivity |].
    split; [| split]; intros; simpl; try lia; assumption.
  - inversion Hnd as [| ? ? Hnotin Hnd']; subst.
    destruct (track_item_hashable key val inf Hval) as (inf1 & H1).
    destruct (IH Hnd' inf1) as (inf' & Hrun & Hcount & Hsum & Hwf).
    exists inf'. simpl. rewrite H1. split; [exact Hrun |].
    assert (Hrest : forall f, String.eqb key f = true ->
                      dict_get String.eqb f rest = None).
    { intros f E. apply String.eqb_eq in E. subst f.
      apply (dict_get_None String.eqb String.eqb_eq).
      rewrite <- list_elem_of_In. exact Hnotin. }
    split; [| split].
    + intros f v. rewrite Hcount, (track_item_count _ _ _ _ f v H1).
      destruct (String.eqb key f) eqn:E; simpl; [| lia].
      rewrite (Hrest f E). lia.
    + intros f. rewrite Hsum, (track_item_sum _ _ _ _ f H1).
      unfold dict_contains. simpl.
      destruct (String.eqb key f) eqn:E; simpl; [| lia].
      rewrite (Hrest f E). lia.
    + intros Hinf. apply Hwf. eapply track_item_wf; eassumption.
Qed.

(** The loop of [add_sample] ends without exception only on hashable
    values, and raises nothing but the [TypeError]. *)
Lemma track_metadata_ok_inv (items : Meta) inf inf' :
  track_metadata items inf = (Ok tt, inf') -> Meta_hashable items.
Proof.
  unfold Meta_hashable. revert inf.
  induction items as [| [key val] rest IH]; intros inf; simpl.
  - constructor.
  - destruct (track_item key val inf) as [[[] | e] inf1] eqn:H1; [| discriminate].
    intros Hrun. constructor.
    + exact (track_item_ok_inv _ _ _ _ H1).
    + exact (IH _ Hrun).
Qed.

Lemma track_metadata_raise (items : Meta) inf inf' (e : exn) :
  track_metadata items inf = (Raise e, inf') -> e = TypeError_unhashable.
Proof.
  revert inf. induction items as [| [key val] rest IH]; intros inf; simpl.
  - discriminate.
  - destruct (track_item key val inf) as [[[] | e1] inf1] eqn:H1.
    + apply IH.
    + intros [= <- _]. exact (track_item_raise _ _ _ _ _ H1).
Qed.

(** *** add_sample on the object *)

Lemma count_samples_app (f : string) (v : value) (ss : list (SampleBase Data)) s :
  count_samples f v (ss ++ [s]) =
  (count_samples f v ss + if has_value f v s then 1 else 0)%nat.
Proof.
  unfold count_samples. rewrite List.filter_app, length_app. simpl.
  destruct (has_value f v s); reflexivity.
Qed.

Lemma count_field_app (f : string) (ss : list (SampleBase Data)) s :
  count_field f (ss ++ [s]) =
  (count_field f ss + if dict_contains String.eqb f (meta s) then 1 else 0)%nat.
Proof.
  unfold count_field. rewrite List.filter_app, length_app. simpl.
  destruct (dict_contains String.eqb f (meta s)); reflexivity.
Qed.

Lemma add_sample_to_ok s c :
  sample_wf s ->
  exists inf',
    add_sample_to s c = (Ok tt, {| samples := samples c ++ [s]; info := inf' |}) /\
    (tally_exact c ->
     tally_exact {| samples := samples c ++ [s]; info := inf' |}) /\
    ((forall f, sum_counts (info c) f = count_field f (samples c)) ->
     forall f, sum_counts inf' f = count_field f (samples c ++ [s])).
Proof.
  intros [Hwf Hh].
  destruct (track_metadata_ok (meta s) (info c) Hwf Hh)
    as (inf' & Hrun & Hcount & Hsum & Hiwf).
  exists inf'. unfold add_sample_to. rewrite Hrun. split; [reflexivity |]. split.
  - intros [Ht Hi]. split; simpl; [| exact (Hiwf Hi)].
    intros f v. rewrite Hcount, Ht, count_samples_app. reflexivity.
  - intros Hs f. rewrite Hsum, Hs, count_field_app. reflexivity.
Qed.

(** A sample is appended exactly when the loop over its metadata ended
    without exception. *)
Lemma add_sample_to_cases s c :
  (exists inf', add_sample_to s c =
                (Ok tt, {| samples := samples c ++ [s]; info := inf' |}) /\
                Meta_hashable (meta s)) \/
  (exists inf', add_sample_to s c =
                (Raise TypeError_unhashable, {| samples := samples c; info := inf' |})).
Proof.
  unfold add_sample_to.
  destruct (track_metadata (meta s) (info c)) as [[[] | e] inf'] eqn:Hrun.
  - left. exists inf'. split; [reflexivity |].
    exact (track_metadata_ok_inv _ _ _ Hrun).
  - right. exists inf'. rewrite (track_metadata_raise _ _ _ _ Hrun). reflexivity.
Qed.
End IndexFacts.

(** ** The methods on the heap *)

Section HeapFacts.
Context {Data : Type}.
Implicit Types (h : heap Data) (c : CorpusBase Data) (s : SampleBase Data).

Lemma add_sample_at h (self : loc) c s :
  h !! self = Some c ->
  add_sample self s h =
  (fst (add_sample_to s c), <[self := snd (add_sample_to s c)]> h).
Proof.
  intros H. unfold add_sample, update. rewrite H.
  destruct (add_sample_to s c). reflexivity.
Qed.

Lemma add_sample_dangling h (self : loc) s :
  h !! self = None -> add_sample self s h = (Raise DanglingReference, h).
Proof. intros H. unfold add_sample, update. rewrite H. reflexivity. Qed.

Lemma add_sample_matching_eq h (self : loc) s (kw : kwargs) :
  add_sample_matching self s kw h =
  match matching_outcome s kw with
  | Ok true => add_sample self s h
  | Ok false => (Ok tt, h)
  | Raise e => (Raise e, h)
  end.
Proof.
  unfold add_sample_matching, matching_outcome, bind, lift, raise.
  destruct (dict_contains String.eqb "self" kw
            || dict_contains String.eqb "sample" kw); [reflexivity |].
  destruct (call_match (meta s) kw) as [[] | e]; reflexivity.
Qed.

Lemma add_sample_matching_to_eq s (kw : kwargs) c :
  add_sample_matching_to s kw c =
  match matching_outcome s kw with
  | Ok true => add_sample_to s c
  | Ok false => (Ok tt, c)
  | Raise e => (Raise e, c)
  end.
Proof.
  unfold add_sample_matching_to, matching_outcome.
  destruct (dict_contains String.eqb "self" kw
            || dict_contains String.eqb "sample" kw); reflexivity.
Qed.

(** What the test of [add_sample_matching] returns is what the body of
    [match] returns, and it raises the lookup error only when the body of
    [match] does. *)
Lemma matching_outcome_Ok s (kw : kwargs) (b : bool) :
  matching_outcome s kw = Ok b ->
  call_match (meta s) kw = Ok b /\ Meta_match (meta s) kw = Ok b.
Proof.
  unfold matching_outcome, call_match.
  destruct (dict_contains String.eqb "self" kw
            || dict_contains String.eqb "sample" kw); [discriminate |].
  destruct (dict_get String.eqb "match" (meta s)); [discriminate |].
  destruct (dict_contains String.eqb "self" kw); [discriminate |].
  intros E. split; exact E.
Qed.

Lemma call_match_raise (m : Meta) (kw : kwargs) (e : exn) :
  call_match m kw = Raise e ->
  e = TypeError_not_callable \/ e = TypeError_multiple_values \/
  exists name, e = AttributeError name /\ Meta_match m kw = Raise e.
Proof.
  unfold call_match.
  destruct (dict_get String.eqb "match" m); [intros [= <-]; auto |].
  destruct (dict_contains String.eqb "self" kw); [intros [= <-]; auto |].
  intros E. pose proof E as E'. apply Meta_match_raise in E'.
  destruct E' as [(_ & _ & ->) | (_ & before & key & val & after & _ & -> & _)];
    [auto |].
  right. right. exists key. split; [reflexivity | exact E].
Qed.

Lemma matching_outcome_raise s (kw : kwargs) (e : exn) :
  matching_outcome s kw = Raise e ->
  e = TypeError_not_callable \/ e = TypeError_multiple_values \/
  exists name, e = AttributeError name /\ Meta_match (meta s) kw = Raise e.
Proof.
  unfold matching_outcome.
  destruct (dict_contains String.eqb "self" kw
            || dict_contains String.eqb "sample" kw); [intros [= <-]; auto |].
  apply call_match_raise.
Qed.

Lemma add_sample_matching_at h (self : loc) c s (kw : kwargs) :
  h !! self = Some c ->
  add_sample_matching self s kw h =
  (fst (add_sample_matching_to s kw c),
   <[self := snd (add_sample_matching_to s kw c)]> h).
Proof.
  intros H. rewrite add_sample_matching_eq, add_sample_matching_to_eq.
  destruct (matching_outcome s kw) as [[] | e]; cbn [fst snd].
  - apply add_sample_at, H.
  - rewrite (list_insert_id _ _ _ H). reflexivity.
  - rewrite (list_insert_id _ _ _ H). reflexivity.
Qed.

(** [add_sample] raises nothing but the [TypeError] of a value without
    hash (and the model's answer to a location that was never allocated). *)
Lemma add_sample_raise h h' (self : loc) s (e : exn) :
  add_sample self s h = (Raise e, h') ->
  e = TypeError_unhashable \/ e = DanglingReference.
Proof.
  destruct (h !! self) as [c |] eqn:H.
  - rewrite (add_sample_at _ _ _ _ H).
    destruct (add_sample_to_cases s c) as [(inf' & -> & _) | (inf' & ->)]; simpl.
    + discriminate.
    + intros [= <- _]. left. reflexivity.
  - rewrite (add_sample_dangling _ _ _ H). intros [= <- _]. right. reflexivity.
Qed.

(** The loop of [filter] writes to the new corpus, the last of the heap. *)
Lemma for_each_new_corpus h c (ss : list (SampleBase Data)) (kw : kwargs) :
  for_each ss (fun s => add_sample_matching (length h) s kw) (h ++ [c]) =
  (fst (add_all_matching_to ss kw c), h ++ [snd (add_all_matching_to ss kw c)]).
Proof.
  revert c. induction ss as [| s ss IH]; intros c; simpl.
  - reflexivity.
  - unfold bind.
    rewrite (add_sample_matching_at (h ++ [c]) (length h) c s kw)
      by (apply list_lookup_middle; reflexivity).
    replace (<[length h := snd (add_sample_matching_to s kw c)]> (h ++ [c]))
      with (h ++ [snd (add_sample_matching_to s kw c)]).
    2:{ rewrite <- (Nat.add_0_r (length h)) at 1.
        rewrite insert_app_r. reflexivity. }
    destruct (add_sample_matching_to s kw c) as [[[] | e] c1]; simpl.
    + apply IH.
    + reflexivity.
Qed.

Lemma filter_at h (self : loc) c (kw : kwargs) :
  h !! self = Some c ->
  dict_contains String.eqb "self" kw = false ->
  filter self kw h =
  (match fst (add_all_matching_to (samples c) kw CorpusBase_init) with
   | Ok _ => Ok (length h)
   | Raise e => Raise e
   end,
   h ++ [snd (add_all_matching_to (samples c) kw CorpusBase_init)]).
Proof.
  intros H Hself. unfold filter, bind, load, CorpusBase_new, alloc.
  rewrite Hself, H.
  pose proof (for_each_new_corpus h CorpusBase_init (samples c) kw) as E.
  unfold bind in E. rewrite E.
  destruct (fst (add_all_matching_to (samples c) kw CorpusBase_init)); reflexivity.
Qed.

Lemma filter_dangling h (self : loc) (kw : kwargs) :
  h !! self = None ->
  dict_contains String.eqb "self" kw = false ->
  filter self kw h = (Raise DanglingReference, h).
Proof.
  intros H Hself. unfold filter, bind, load. rewrite Hself, H. reflexivity.
Qed.

(** The keyword [self] stops [filter] before it does anything. *)
Lemma filter_self_keyword h (self : loc) (kw : kwargs) :
  dict_contains String.eqb "self" kw = true ->
  filter self kw h = (Raise TypeError_multiple_values, h).
Proof. intros Hself. unfold filter. rewrite Hself. reflexivity. Qed.
End HeapFacts.

(** ** Invariants of the corpora of a heap *)

Section Invariants.
Context {Data : Type}.
Variable P : CorpusBase Data -> Prop.
Variable Q : SampleBase Data -> Prop.
Hypothesis P_init : P CorpusBase_init.
Hypothesis P_add : forall s c, Q s -> P c -> P (snd (add_sample_to s c)).
Hypothesis P_samples : forall c, P c -> Forall Q (samples c).

Lemma add_sample_matching_to_inv s (kw : kwargs) c :
  Q s -> P c -> P (snd (add_sample_matching_to s kw c)).
Proof.
  intros Hs Hc. rewrite add_sample_matching_to_eq.
  destruct (matching_outcome s kw) as [[] | e]; simpl; auto.
Qed.

Lemma add_all_matching_to_inv (ss : list (SampleBase Data)) (kw : kwargs) c :
  Forall Q ss -> P c -> P (snd (add_all_matching_to ss kw c)).
Proof.
  intros Hss. revert c. induction Hss as [| s ss Hs _ IH]; intros c Hc; simpl.
  - exact Hc.
  - pose proof (add_sample_matching_to_inv s kw c Hs Hc) as H1.
    destruct (add_sample_matching_to s kw c) as [[[] | e] c1]; simpl in *.
    + apply IH, H1.
    + exact H1.
Qed.

Lemma exec_inv (cl : call) (h : heap Data) :
  Forall Q (call_samples cl) -> Forall P h -> Forall P (exec cl h).
Proof.
  intros Hcl Hh. unfold exec.
  destruct cl as [| self s | self s kw | self kw]; simpl.
  - unfold bind, CorpusBase_new, alloc. simpl.
    apply Forall_app. split; [exact Hh | constructor; [exact P_init | constructor]].
  - inversion Hcl as [| ? ? Hs _]; subst.
    destruct (h !! self) as [c |] eqn:H.
    + rewrite (add_sample_at _ _ _ _ H). simpl.
      apply Forall_insert; [exact Hh |].
      apply P_add; [exact Hs | exact (Forall_lookup_1 _ _ _ _ Hh H)].
    + rewrite (add_sample_dangling _ _ _ H). exact Hh.
  - inversion Hcl as [| ? ? Hs _]; subst.
    destruct (h !! self) as [c |] eqn:H.
    + rewrite (add_sample_matching_at _ _ _ _ _ H). simpl.
      apply Forall_insert; [exact Hh |].
      apply add_sample_matching_to_inv;
        [exact Hs | exact (Forall_lookup_1 _ _ _ _ Hh H)].
    + rewrite add_sample_matching_eq.
      destruct (matching_outcome s kw) as [[] | e]; try exact Hh.
      rewrite (add_sample_dangling _ _ _ H). exact Hh.
  - unfold bind.
    destruct (dict_contains String.eqb "self" kw) eqn:Hself;
      [rewrite (filter_self_keyword _ _ _ Hself); exact Hh |].
    destruct (h !! self) as [c |] eqn:H.
    + rewrite (filter_at _ _ _ _ H Hself).
      assert (Hnew : Forall P
                (h ++ [snd (add_all_matching_to (samples c) kw CorpusBase_init)])).
      { apply Forall_app. split; [exact Hh |]. constructor; [| constructor].
        apply add_all_matching_to_inv; [| exact P_init].
        apply P_samples. exact (Forall_lookup_1 _ _ _ _ Hh H). }
      destruct (fst (add_all_matching_to (samples c) kw CorpusBase_init));
        exact Hnew.
    + rewrite (filter_dangling _ _ _ H Hself). exact Hh.
Qed.

Lemma run_inv (cs : list call) (h : heap Data) :
  Forall (fun cl => Forall Q (call_samples cl)) cs ->
  Forall P h -> Forall P (run cs h).
Proof.
  intros Hcs. revert h. unfold run.
  induction Hcs as [| cl cs Hcl _ IH]; intros h Hh; simpl.
  - exact Hh.
  - apply IH, exec_inv; assumption.
Qed.
End Invariants.

Section CorpusTheorems.
Context {Data : Type}.
Implicit Types (h : heap Data) (c : CorpusBase Data) (s : SampleBase Data).

Lemma corpus_consistent_init : corpus_consistent (@CorpusBase_init Data).
Proof.
  split; [split | split].
  - intros f v. reflexivity.
  - intros f counts. discriminate.
  - intros f. reflexivity.
  - constructor.
Qed.

Lemma corpus_consistent_add s c :
  sample_wf s -> corpus_consistent c ->
  corpus_consistent (snd (add_sample_to s c)).
Proof.
  intros Hs (Ht & Hf & Hw).
  destruct (add_sample_to_ok s c Hs) as (inf' & -> & Ht' & Hf'). simpl.
  split; [exact (Ht' Ht) | split].
  - intros f. apply Hf'. exact Hf.
  - simpl. apply Forall_app. split; [exact Hw | constructor; [exact Hs | constructor]].
Qed.

(** Every corpus that well-formed calls build is consistent. *)
Lemma run_consistent (cs : list call) (self : loc) c :
  Forall (@call_wf Data) cs ->
  run cs [] !! self = Some c -> corpus_consistent c.
Proof.
  intros Hcs Hc.
  assert (Hall : Forall corpus_consistent (run cs ([] : heap Data))).
  { apply (run_inv corpus_consistent sample_wf).
    - exact corpus_consistent_init.
    - exact corpus_consistent_add.
    - intros c0 (_ & _ & Hw). exact Hw.
    - exact Hcs.
    - constructor. }
  exact (Forall_lookup_1 _ _ _ _ Hall Hc).
Qed.

(** Whatever the calls, a corpus holds only samples of hashable
    metadata: the others raise in [add_sample] before the append. *)
Lemma run_samples_hashable (cs : list call) (self : loc) c :
  run cs [] !! self = Some c -> samples_hashable c.
Proof.
  intros Hc.
  assert (Hall : Forall samples_hashable (run cs ([] : heap Data))).
  { apply (run_inv samples_hashable (fun s => True)).
    - constructor.
    - intros s c0 _ Hc0. unfold samples_hashable in *.
      destruct (add_sample_to_cases s c0) as [(inf' & -> & Hh) | (inf' & ->)]; simpl.
      + apply Forall_app. split; [exact Hc0 | constructor; [exact Hh | constructor]].
      + exact Hc0.
    - intros c0 _. apply Forall_true. intros _. exact I.
    - apply Forall_true. intros cl. apply Forall_true. intros _. exact I.
    - constructor. }
  exact (Forall_lookup_1 _ _ _ _ Hall Hc).
Qed.
End CorpusTheorems.

(** ** Corpora: the index, filtering, conditional insertion *)

Section SampleLists.
Context {Data : Type}.
Implicit Types (h : heap Data) (c : CorpusBase Data) (s : SampleBase Data).

Lemma track_metadata_hashable (items : Meta) (inf : index) :
  Meta_hashable items -> exists inf', track_metadata items inf = (Ok tt, inf').
Proof.
  unfold Meta_hashable. intros Hh. revert inf.
  induction Hh as [| [key val] rest Hval _ IH]; intros inf; simpl.
  - exists inf. reflexivity.
  - destruct (track_item_hashable key val inf Hval) as (inf1 & ->). apply IH.
Qed.

Lemma add_sample_to_hashable s c :
  Meta_hashable (meta s) ->
  exists inf',
    add_sample_to s c = (Ok tt, {| samples := samples c ++ [s]; info := inf' |}).
Proof.
  intros Hh. unfold add_sample_to.
  destruct (track_metadata_hashable (meta s) (info c) Hh) as (inf' & ->).
  exists inf'. reflexivity.
Qed.

Lemma matches_outcome s (kw : kwargs) (b : bool) :
  matching_outcome s kw = Ok b -> matches kw s = b.
Proof.
  intros E. apply matching_outcome_Ok in E. destruct E as (E & _).
  unfold matches. rewrite E. destruct b; reflexivity.
Qed.

(** The samples of the new corpus after the loop of [filter]. *)
Lemma add_all_matching_to_samples (ss : list (SampleBase Data)) (kw : kwargs) c :
  Forall (fun s => Meta_hashable (meta s)) ss ->
  match fst (add_all_matching_to ss kw c) with
  | Ok _ =>
      samples (snd (add_all_matching_to ss kw c)) =
      samples c ++ List.filter (matches kw) ss /\
      Forall (fun s => exists b, matching_outcome s kw = Ok b) ss
  | Raise e => exists s, In s ss /\ matching_outcome s kw = Raise e
  end.
Proof.
  intros Hss. revert c. induction Hss as [| s ss Hs _ IH]; intros c; simpl.
  - rewrite app_nil_r. split; [reflexivity | constructor].
  - rewrite add_sample_matching_to_eq.
    destruct (matching_outcome s kw) as [[] | e] eqn:Hm; simpl.
    + rewrite (matches_outcome _ _ _ Hm).
      destruct (add_sample_to_hashable s c Hs) as (inf' & ->).
      specialize (IH {| samples := samples c ++ [s]; info := inf' |}).
      destruct (fst (add_all_matching_to ss kw _)).
      * destruct IH as (IH & Hall). rewrite IH. simpl. rewrite <- app_assoc.
        split; [reflexivity | constructor; [eauto | exact Hall]].
      * destruct IH as (s' & Hin & Hr). exists s'. split; [right |]; assumption.
    + rewrite (matches_outcome _ _ _ Hm).
      specialize (IH c). destruct (fst (add_all_matching_to ss kw c)).
      * destruct IH as (IH & Hall).
        split; [exact IH | constructor; [eauto | exact Hall]].
      * destruct IH as (s' & Hin & Hr). exists s'. split; [right |]; assumption.
    + exists s. split; [left; reflexivity | exact Hm].
Qed.
End SampleLists.

Section ClaimTheorems.
Context {Data : Type}.
Implicit Types (h : heap Data) (c : CorpusBase Data) (s : SampleBase Data).

(** C3: in every heap that a sequence of [CorpusBase()], [add_sample],
    [add_sample_matching] and [filter] calls builds from nothing (the
    metadata of the samples passed in having hashable values), the
    frequency index of every corpus is exactly the tally of its samples:
    the count of [(f, v)] is the number of samples whose field [f] is [v],
    and the index has no empty field and no zero count. *)
Theorem index_is_tally (cs : list call) (self : loc) c :
  Forall (@call_wf Data) cs ->
  run cs [] !! self = Some c ->
  tally_exact c.
Proof.
  intros Hcs Hc. destruct (run_consistent cs self c Hcs Hc) as (Ht & _).
  exact Ht.
Qed.

(** C5 (amended): for every field, the counts of its values add up to
    the number of samples that have the field; that is the length of the
    corpus when every sample has the field. *)
Theorem field_counts_sum (cs : list call) (self : loc) c (f : string) :
  Forall (@call_wf Data) cs ->
  run cs [] !! self = Some c ->
  sum_counts (info c) f = count_field f (samples c) /\
  (Forall (fun s => has_field (meta s) f) (samples c) ->
   sum_counts (info c) f = length (samples c)).
Proof.
  intros Hcs Hc. destruct (run_consistent cs self c Hcs Hc) as (_ & Hf & _).
  split; [apply Hf |]. intros Hall. rewrite Hf. unfold count_field.
  clear Hf Hc. induction Hall as [| s ss [v Hv] _ IH]; simpl.
  - reflexivity.
  - unfold dict_contains at 1. rewrite Hv. simpl. rewrite IH. reflexivity.
Qed.



(** C8: [filter] leaves the source corpus, and every corpus there was,
    as it is: the heap after the call begins with the heap before it, and
    the corpus returned is a new one at its end. *)
Theorem filter_source_unchanged h (self : loc) (kw : kwargs) :
  snd (filter self kw h) !! self = h !! self /\
  take (length h) (snd (filter self kw h)) = h /\
  match fst (filter self kw h) with
  | Ok new => new = length h /\ new <> self
  | Raise _ => True
  end.
Proof.
  destruct (dict_contains String.eqb "self" kw) eqn:Hself.
  { rewrite (filter_self_keyword _ _ _ Hself). simpl.
    split; [reflexivity | split; [apply take_ge; lia | exact I]]. }
  destruct (h !! self) as [c |] eqn:Hc.
  - rewrite (filter_at _ _ _ _ Hc Hself). simpl.
    pose proof (lookup_lt_Some _ _ _ Hc) as Hlt.
    split; [| split].
    + rewrite lookup_app_l by exact Hlt. exact Hc.
    + apply take_app_length.
    + destruct (fst (add_all_matching_to (samples c) kw CorpusBase_init));
        [split; [reflexivity | lia] | exact I].
  - rewrite (filter_dangling _ _ _ Hc Hself). simpl.
    split; [exact Hc | split; [apply take_ge; lia | exact I]].
Qed.

(** C10: when [add_sample_matching] raises the lookup error of a field
    that is missing, the heap is as it was before the call: the error is
    the one [match] raised, before anything was written. *)
Theorem add_sample_matching_error_atomic h h' (self : loc) s (kw : kwargs)
    (name : string) :
  add_sample_matching self s kw h = (Raise (AttributeError name), h') ->
  h' = h /\ Meta_match (meta s) kw = Raise (AttributeError name).
Proof.
  rewrite add_sample_matching_eq.
  destruct (matching_outcome s kw) as [[] | e] eqn:Hm.
  - intros H. destruct (add_sample_raise _ _ _ _ _ H); discriminate.
  - discriminate.
  - intros [= -> ->]. split; [reflexivity |].
    destruct (matching_outcome_raise _ _ _ Hm) as [[=] | [[=] | (n & _ & Hr)]].
    exact Hr.
Qed.
End ClaimTheorems.

(** ** Indexing *)

Section Indexing.
Context {A : Type}.
Implicit Types (l : list A).

Lemma list_getitem_index l (i : nat) (x : A) :
  l !! i = Some x -> list_getitem l (Index (Z.of_nat i)) = Ok (One x).
Proof.
  intros H. pose proof (lookup_lt_Some _ _ _ H) as Hlt. unfold list_getitem.
  destruct (Z.ltb_spec (Z.of_nat i) 0) as [Hneg | _]; [lia |].
  destruct (Z.ltb_spec (Z.of_nat i) 0) as [Hneg | _]; [lia |].
  destruct (Z.leb_spec (Z.of_nat (length l)) (Z.of_nat i)) as [Hge | _]; [lia |].
  simpl. rewrite Nat2Z.id, H. reflexivity.
Qed.

(** An index from the end: [l[-k]] is [l[len(l) - k]]. *)
Lemma list_getitem_index_neg l (k : nat) (x : A) :
  (0 < k <= length l)%nat -> l !! (length l - k)%nat = Some x ->
  list_getitem l (Index (- Z.of_nat k)) = Ok (One x).
Proof.
  intros Hk H. pose proof (lookup_lt_Some _ _ _ H) as Hlt. unfold list_getitem.
  destruct (Z.ltb_spec (- Z.of_nat k) 0) as [_ | Hpos]; [| lia].
  destruct (Z.ltb_spec (- Z.of_nat k + Z.of_nat (length l)) 0) as [Hneg | _]; [lia |].
  destruct (Z.leb_spec (Z.of_nat (length l))
              (- Z.of_nat k + Z.of_nat (length l))) as [Hge | _]; [lia |].
  simpl.
  replace (Z.to_nat (- Z.of_nat k + Z.of_nat (length l)))
    with (length l - k)%nat by lia.
  rewrite H. reflexivity.
Qed.

Lemma list_getitem_index_out l (i : Z) :
  Z.of_nat (length l) <= i \/ i < - Z.of_nat (length l) ->
  list_getitem l (Index i) = Raise IndexError.
Proof.
  intros Hout. unfold list_getitem.
  destruct (Z.ltb_spec i 0) as [Hneg | Hpos].
  - destruct (Z.ltb_spec (i + Z.of_nat (length l)) 0) as [_ | Hge]; [| lia].
    reflexivity.
  - destruct (Z.ltb_spec i 0) as [Hneg | _]; [lia |].
    destruct (Z.leb_spec (Z.of_nat (length l)) i) as [_ | Hlt]; [| lia].
    reflexivity.
Qed.

Lemma take_strided_unit l (cur : Z) (count : nat) :
  0 <= cur ->
  take_strided l cur 1 count = take count (drop (Z.to_nat cur) l).
Proof.
  revert cur. induction count as [| count IH]; intros cur Hcur; simpl.
  - rewrite take_0. reflexivity.
  - destruct (l !! Z.to_nat cur) as [x |] eqn:H.
    + rewrite (drop_S _ _ _ H). simpl. f_equal.
      rewrite IH by lia. f_equal. f_equal. lia.
    + apply lookup_ge_None in H. rewrite drop_ge by exact H. reflexivity.
Qed.

Lemma take_strided_sublist l (cur step : Z) (count : nat) :
  0 <= cur -> 0 < step ->
  take_strided l cur step count `sublist_of` drop (Z.to_nat cur) l.
Proof.
  revert cur. induction count as [| count IH]; intros cur Hcur Hstep; simpl.
  - apply sublist_nil_l.
  - destruct (l !! Z.to_nat cur) as [x |] eqn:H; [| apply sublist_nil_l].
    rewrite (drop_S _ _ _ H). apply sublist_skip.
    etransitivity; [apply IH; lia |].
    replace (Z.to_nat (cur + step))
      with (S (Z.to_nat cur) + Z.to_nat (step - 1))%nat by lia.
    rewrite <- drop_drop. apply sublist_drop.
Qed.

Lemma adjust_bound_range (n step b : Z) :
  0 <= n -> 0 < step -> 0 <= adjust_bound n step b <= n.
Proof.
  intros Hn Hstep. unfold adjust_bound.
  destruct (Z.ltb_spec b 0); destruct (Z.ltb_spec (b + n) 0);
    destruct (Z.ltb_spec step 0); destruct (Z.leb_spec n b); lia.
Qed.

Lemma slice_start_nonneg (n step : Z) (start : option Z) :
  0 <= n -> 0 < step -> 0 <= slice_start n step start.
Proof.
  intros Hn Hstep. destruct start as [b |]; simpl.
  - apply adjust_bound_range; assumption.
  - destruct (Z.ltb_spec step 0); lia.
Qed.

(** A slice of positive step never raises and selects the elements in the
    order of the list. *)
Lemma list_getitem_slice l (start stop step : option Z) :
  0 < default 1 step ->
  exists l', list_getitem l (Slice start stop step) = Ok (Several l') /\
             l' `sublist_of` l.
Proof.
  intros Hstep. unfold list_getitem.
  destruct (Z.eqb_spec (default 1 step) 0) as [E | _]; [lia |].
  eexists. split; [reflexivity |].
  etransitivity; [| apply (sublist_drop l)].
  apply take_strided_sublist; [| exact Hstep].
  apply slice_start_nonneg; [lia | exact Hstep].
Qed.

(** [l[a:b]] for natural numbers [a] and [b], within the list or not. *)
Lemma list_getitem_slice_nat l (a b : nat) :
  list_getitem l (Slice (Some (Z.of_nat a)) (Some (Z.of_nat b)) None) =
  Ok (Several (take (b - a) (drop a l))).
Proof.
  unfold list_getitem. simpl default.
  destruct (Z.eqb_spec 1 0) as [E | _]; [lia |].
  do 2 f_equal. unfold slice_start, slice_stop, adjust_bound, slice_length.
  destruct (Z.ltb_spec (Z.of_nat a) 0) as [Ha | _]; [lia |].
  destruct (Z.ltb_spec (Z.of_nat b) 0) as [Hb | _]; [lia |].
  destruct (Z.ltb_spec 1 0) as [H1 | _]; [lia |].
  set (n := length l).
  destruct (Z.leb_spec (Z.of_nat n) (Z.of_nat a)) as [Han | Han].
  - assert (Hd : drop a l = []) by (apply drop_ge; unfold n in Han; lia).
    destruct (Z.leb_spec (Z.of_nat n) (Z.of_nat b));
      match goal with |- context [?x <? ?y] => destruct (Z.ltb_spec x y) end;
      try lia; try (rewrite Hd, take_nil; reflexivity).
  - destruct (Z.leb_spec (Z.of_nat n) (Z.of_nat b)) as [Hbn | Hbn];
      match goal with |- context [?x <? ?y] => destruct (Z.ltb_spec x y) end;
      try lia; rewrite ?Z.div_1_r.
    + rewrite take_strided_unit by lia. rewrite Nat2Z.id.
      rewrite !take_ge; [reflexivity | |]; rewrite length_drop; unfold n in *; lia.
    + rewrite take_strided_unit by lia. rewrite Nat2Z.id.
      f_equal. lia.
    + simpl. replace (b - a)%nat with 0%nat by lia. rewrite take_0. reflexivity.
Qed.
End Indexing.

Section GetItem.
Context {Data : Type}.
Implicit Types (h : heap Data) (c : CorpusBase Data) (s : SampleBase Data).

(** The corpus after [add_sample] of a list of samples, in order. *)
Lemma run_add_samples (ss : list (SampleBase Data)) c :
  Forall (fun s => Meta_hashable (meta s)) ss ->
  exists inf,
    run (map (AddSample 0%nat) ss) [c] =
    [{| samples := samples c ++ ss; info := inf |}].
Proof.
  intros Hss. revert c. induction Hss as [| s ss Hs _ IH]; intros c.
  - exists (info c). simpl. rewrite app_nil_r. destruct c; reflexivity.
  - destruct (add_sample_to_hashable s c Hs) as (inf1 & H1).
    destruct (IH {| samples := samples c ++ [s]; info := inf1 |}) as (inf & Hrun).
    exists inf. simpl in Hrun. rewrite <- app_assoc in Hrun. simpl in Hrun.
    rewrite <- Hrun. unfold run. simpl. f_equal.
    unfold exec. simpl. unfold add_sample, update. simpl. rewrite H1. reflexivity.
Qed.

Lemma getitem_eq (ss : list (SampleBase Data)) (inf : index) (r : subscript) :
  fst (getitem 0%nat r [{| samples := ss; info := inf |}]) = list_getitem ss r.
Proof. reflexivity. Qed.

(** C7 (amended): after [add_sample] of [s1..sn] to a new corpus, its
    length is [n] and the index [i] gives the sample added in place [i];
    an index from [n] on, or below [-n], raises [IndexError].  A slice of
    positive step never raises: it returns samples of the corpus in their
    order, and [corpus[a:b]] is the samples from place [a] up to place
    [b], none when [a] is beyond the length. *)
Theorem getitem_after_adding (ss : list (SampleBase Data)) :
  Forall (fun s => Meta_hashable (meta s)) ss ->
  let h := run (NewCorpus :: map (AddSample 0%nat) ss) [] in
  let n := Z.of_nat (length ss) in
  fst (len 0%nat h) = Ok n /\
  (forall (i : nat) s,
      ss !! i = Some s -> fst (getitem 0%nat (Index (Z.of_nat i)) h) = Ok (One s)) /\
  (forall i : Z,
      n <= i \/ i < - n -> fst (getitem 0%nat (Index i) h) = Raise IndexError) /\
  (forall start stop step,
      0 < default 1 step ->
      exists l, fst (getitem 0%nat (Slice start stop step) h) = Ok (Several l) /\
                l `sublist_of` ss) /\
  (forall a b : nat,
      fst (getitem 0%nat (Slice (Some (Z.of_nat a)) (Some (Z.of_nat b)) None) h) =
      Ok (Several (take (b - a) (drop a ss)))) /\
  (forall a b : nat,
      (length ss <= a)%nat ->
      fst (getitem 0%nat (Slice (Some (Z.of_nat a)) (Some (Z.of_nat b)) None) h) =
      Ok (Several [])).
Proof.
  intros Hss h n.
  destruct (run_add_samples ss CorpusBase_init Hss) as (inf & Hrun).
  assert (Hh : h = [{| samples := ss; info := inf |}]) by exact Hrun.
  rewrite Hh. split; [reflexivity |].
  split; [| split; [| split; [| split]]].
  - intros i s Hi. rewrite getitem_eq. apply list_getitem_index, Hi.
  - intros i Hi. rewrite getitem_eq. apply list_getitem_index_out, Hi.
  - intros start stop step Hstep. rewrite getitem_eq.
    apply list_getitem_slice, Hstep.
  - intros a b. rewrite getitem_eq. apply list_getitem_slice_nat.
  - intros a b Ha. rewrite getitem_eq, list_getitem_slice_nat.
    rewrite drop_ge by exact Ha. rewrite take_nil. reflexivity.
Qed.
End GetItem.

(** ** Propagation of the errors of match *)

Section Propagation.
Context {Data : Type}.
Implicit Types (h : heap Data) (c : CorpusBase Data) (s : SampleBase Data).

(** What the test of [add_sample_matching] raises, the call raises, and
    the heap is as it was. *)
Lemma add_sample_matching_raises h (self : loc) s (kw : kwargs) (e : exn) :
  matching_outcome s kw = Raise e ->
  add_sample_matching self s kw h = (Raise e, h).
Proof. intros H. rewrite add_sample_matching_eq, H. reflexivity. Qed.

(** The error of [match] is the error of [add_sample_matching], when
    [match] is called at all: no criterion is named as a parameter of
    [add_sample_matching] and [match] is the method of the metadata. *)
Lemma add_sample_matching_propagates h (self : loc) s (kw : kwargs) (e : exn) :
  dict_contains String.eqb "self" kw = false ->
  dict_contains String.eqb "sample" kw = false ->
  dict_get String.eqb "match" (meta s) = None ->
  Meta_match (meta s) kw = Raise e ->
  add_sample_matching self s kw h = (Raise e, h).
Proof.
  intros Hself Hsample Hmatch H. apply add_sample_matching_raises.
  unfold matching_outcome, call_match. rewrite Hself, Hsample, Hmatch.
  exact H.
Qed.

Lemma add_all_matching_to_propagates (ss : list (SampleBase Data)) (kw : kwargs) c :
  Forall (fun s => Meta_hashable (meta s)) ss ->
  (exists s e, In s ss /\ call_match (meta s) kw = Raise e) ->
  exists e', fst (add_all_matching_to ss kw c) = Raise e' /\
             (e' = TypeError_multiple_values \/
              exists s, In s ss /\ call_match (meta s) kw = Raise e').
Proof.
  intros Hss (s & e & Hin & Hr).
  pose proof (add_all_matching_to_samples ss kw c Hss) as H.
  destruct (fst (add_all_matching_to ss kw c)) as [[] | e'].
  - destruct H as (_ & Hall). rewrite List.Forall_forall in Hall.
    destruct (Hall s Hin) as (b & Hb). apply matching_outcome_Ok in Hb.
    destruct Hb as (Hb & _). congruence.
  - exists e'. split; [reflexivity |].
    destruct H as (s' & Hin' & Hr'). unfold matching_outcome in Hr'.
    destruct (dict_contains String.eqb "self" kw
              || dict_contains String.eqb "sample" kw).
    + left. congruence.
    + right. exists s'. split; assumption.
Qed.

(** X5: when the call of [match] raises on some sample of the source,
    [filter] raises and returns no corpus; what it raises is the
    [TypeError] of a criterion named as a parameter of [filter] or of
    [add_sample_matching], or an error that the call of [match] raised on
    a sample of the source. *)
Lemma filter_propagates (cs : list call) (self : loc) c (kw : kwargs) :
  run cs [] !! self = Some c ->
  (exists s e, In s (samples c) /\ call_match (meta s) kw = Raise e) ->
  exists e', fst (filter self kw (run cs [])) = Raise e' /\
             (e' = TypeError_multiple_values \/
              exists s, In s (samples c) /\ call_match (meta s) kw = Raise e').
Proof.
  intros Hc Hex.
  destruct (dict_contains String.eqb "self" kw) eqn:Hself.
  { rewrite (filter_self_keyword _ _ _ Hself). simpl. eauto. }
  rewrite (filter_at _ _ _ _ Hc Hself). simpl.
  destruct (add_all_matching_to_propagates (samples c) kw CorpusBase_init
              (run_samples_hashable cs self c Hc) Hex) as (e' & -> & He').
  exists e'. split; [reflexivity | exact He'].
Qed.
End Propagation.

(** ** AudioSample.plot *)

Lemma load_global_np : load_global "np" = Raise (NameError "np").
Proof. reflexivity. Qed.

(** Without matplotlib, [plot] prints a warning and returns. *)
Lemma plot_without_matplotlib (env : environment) (self : AudioSample)
    (NFFT noverlap : Z) (kw : kwargs) :
  importable env "matplotlib.pyplot" = false ->
  plot env self NFFT noverlap kw =
  Ok [Stdout "Warning: matplotlib is required for plotting"].
Proof. intros H. unfold plot. rewrite H. reflexivity. Qed.

(** X19: With matplotlib, [plot] raises on every sample: a payload of one
    dimension reaches the read of [np], any other the read of [data]. *)
Lemma plot_with_matplotlib (env : environment) (self : AudioSample)
    (NFFT noverlap : Z) (kw : kwargs) :
  importable env "matplotlib.pyplot" = true ->
  plot env self NFFT noverlap kw =
  if Nat.eqb (ndim (data (base self))) 1
  then Raise (NameError "np")
  else Raise (UnboundLocalError "data").
Proof.
  intros H. unfold plot. rewrite H. simpl negb. cbv iota.
  destruct (Nat.eqb (ndim (data (base self))) 1) eqn:E; [| reflexivity].
  apply Nat.eqb_eq in E. unfold ndim in E. unfold add_column_axis.
  destruct (shape (data (base self))) as [| n [| m rest]]; try discriminate.
  reflexivity.
Qed.

(** * Further properties of the module *)

(** ** Construction of metadata and the criteria of match *)

Lemma dict_set_fresh {K V : Type} (eqb : K -> K -> bool) (k : K) (v : V)
    (d : list (K * V)) :
  dict_get eqb k d = None -> dict_set eqb k v d = d ++ [(k, v)].
Proof.
  induction d as [| [k' v'] d IH]; simpl; [reflexivity |].
  destruct (eqb k' k); [discriminate |]. intros H. rewrite (IH H). reflexivity.
Qed.

Lemma Meta_init_fold (attr : kwargs) (acc : Meta) :
  NoDup (dict_keys (acc ++ attr)) ->
  fold_left (fun self kv => dict_set String.eqb (fst kv) (snd kv) self) attr acc =
  acc ++ attr.
Proof.
  revert acc. induction attr as [| [k v] attr IH]; intros acc Hnd; simpl.
  - rewrite app_nil_r. reflexivity.
  - assert (Hk : dict_get String.eqb k acc = None).
    { apply (dict_get_None String.eqb String.eqb_eq). intros Hin.
      unfold dict_keys in Hnd. rewrite map_app in Hnd. simpl in Hnd.
      unfold dict_keys in Hin. clear IH.
      induction acc as [| [k0 v0] acc IHacc]; simpl in *; [destruct Hin |].
      inversion Hnd as [| ? ? Hnotin Hnd']; subst.
      destruct Hin as [-> | Hin]; [| exact (IHacc Hnd' Hin)].
      apply Hnotin, list_elem_of_In, in_or_app. right. left. reflexivity. }
    rewrite (dict_set_fresh _ _ _ _ Hk). rewrite IH.
    + rewrite <- app_assoc. reflexivity.
    + rewrite <- app_assoc. exact Hnd.
Qed.

(** X1: The object made from keyword arguments (none of them one that
    [__init__] does not store: [self], [__setattr__] or a data descriptor
    of the class) holds exactly them: [as_dict()] gives them back, unless
    one of them is named [as_dict] and hides the method; an attribute
    that was given reads as its value, also under the name of a method,
    and any other name reads as what the class has under it; the read
    raises the [AttributeError] of that name when the class has
    nothing. *)
Theorem Meta_init_roundtrip (attr : kwargs) :
  NoDup (dict_keys attr) ->
  Forall (fun key => ~ In key not_stored) (dict_keys attr) ->
  call_as_dict (Meta_init attr) =
    (if dict_contains String.eqb "as_dict" attr
     then Raise TypeError_not_callable else Ok attr) /\
  forall key,
    object_getattribute (Meta_init attr) key =
    match dict_get String.eqb key attr with
    | Some v => Ok (Data v)
    | None => match class_lookup key with
              | Some o => Ok o
              | None => Raise (AttributeError key)
              end
    end.
Proof.
  intros Hnd Hns.
  assert (E : Meta_init attr = attr) by (apply (Meta_init_fold attr []), Hnd).
  rewrite E. split.
  { unfold call_as_dict, dict_contains, as_dict.
    destruct (dict_get String.eqb "as_dict" attr); reflexivity. }
  intros key. unfold object_getattribute.
  destruct (is_data_descriptor key) eqn:Hd; [| reflexivity].
  assert (Hk : dict_get String.eqb key attr = None).
  { apply (dict_get_None String.eqb String.eqb_eq). intros Hin.
    rewrite List.Forall_forall in Hns. apply (Hns key Hin).
    right. right. apply is_data_descriptor_In, Hd. }
  rewrite Hk. reflexivity.
Qed.

(** [match] on criteria followed by more criteria is [match] on the first
    ones and, when that is true, [match] on the others; an error or a
    false of the first ones is the outcome. *)
Theorem Meta_match_app (self : Meta) (kw1 kw2 : kwargs) :
  Meta_match self (kw1 ++ kw2) =
  match Meta_match self kw1 with
  | Ok true => Meta_match self kw2
  | outcome => outcome
  end.
Proof.
  induction kw1 as [| [key val] kw1 IH].
  - reflexivity.
  - simpl app. rewrite !Meta_match_cons.
    destruct (getattribute self key) as [attr | e]; [| reflexivity].
    destruct (obj_mismatch attr val); [reflexivity | exact IH].
Qed.

(** When every key is read without error, [match] is the conjunction of
    the tests of the criteria. *)
Lemma Meta_match_forallb (self : Meta) (kw : kwargs) :
  dict_get String.eqb "__getattribute__" self = None ->
  (forall key, In key (dict_keys kw) -> has_field self key) ->
  Meta_match self kw =
  Ok (forallb (fun kv => match getattribute self (fst kv) with
                         | Ok o => negb (obj_mismatch o (snd kv))
                         | Raise _ => false
                         end) kw).
Proof.
  intros Hg. induction kw as [| [key val] rest IH]; intros Hkeys.
  - reflexivity.
  - destruct (getattribute_has_field _ key Hg (Hkeys key (or_introl eq_refl)))
      as (o & Ho).
    rewrite Meta_match_cons. simpl. rewrite Ho.
    destruct (obj_mismatch o val); [reflexivity |].
    apply IH. intros k Hk. apply Hkeys. right. exact Hk.
Qed.

Lemma forallb_Permutation {A : Type} (f : A -> bool) (l l' : list A) :
  Permutation l l' -> forallb f l = forallb f l'.
Proof.
  induction 1 as [| x l l' _ IH | x y l | l l' l'' _ IH1 _ IH2]; simpl.
  - reflexivity.
  - rewrite IH. reflexivity.
  - destruct (f x), (f y); reflexivity.
  - congruence.
Qed.

(** X3: When every key is a field of the object, the order of the criteria
    does not change the outcome of [match]. *)
Theorem Meta_match_Permutation (self : Meta) (kw kw' : kwargs) :
  Permutation kw kw' ->
  (forall key, In key (dict_keys kw) -> has_field self key) ->
  Meta_match self kw = Meta_match self kw'.
Proof.
  intros Hp Hkeys.
  destruct (dict_get String.eqb "__getattribute__" self) as [v |] eqn:Hg.
  { rewrite !(Meta_match_hidden _ _ _ Hg).
    destruct kw as [| kv kw], kw' as [| kv' kw']; try reflexivity.
    - apply Permutation_nil_l in Hp. discriminate Hp.
    - apply Permutation_nil_r in Hp. discriminate Hp. }
  rewrite (Meta_match_forallb self kw Hg Hkeys).
  rewrite (Meta_match_forallb self kw' Hg).
  - f_equal. apply forallb_Permutation, Hp.
  - intros key Hin. apply Hkeys. unfold dict_keys in *.
    apply list_elem_of_In. rewrite (Permutation_map fst Hp).
    apply list_elem_of_In, Hin.
Qed.

(** ** The index as a function of the samples *)

Section Rebuild.
Context {Data : Type}.
Implicit Types (h : heap Data) (c : CorpusBase Data) (s : SampleBase Data).

Lemma rebuild_snoc (ss : list (SampleBase Data)) s :
  rebuild (ss ++ [s]) = snd (add_sample_to s (rebuild ss)).
Proof. unfold rebuild. rewrite fold_left_app. reflexivity. Qed.

Lemma rebuilt_add s c :
  Meta_hashable (meta s) ->
  rebuild (samples c) = c /\ samples_hashable c ->
  rebuild (samples (snd (add_sample_to s c))) = snd (add_sample_to s c) /\
  samples_hashable (snd (add_sample_to s c)).
Proof.
  intros Hs [Hc Hh]. destruct (add_sample_to_hashable s c Hs) as (inf' & E).
  split.
  - rewrite E at 1. simpl. rewrite rebuild_snoc, Hc. reflexivity.
  - rewrite E. unfold samples_hashable. simpl.
    apply Forall_app. split; [exact Hh | constructor; [exact Hs | constructor]].
Qed.

(** Every corpus built by calls is the corpus that [add_sample] of its own
    samples makes of a new one. *)
Lemma run_rebuilt (cs : list call) (self : loc) c :
  Forall (@call_hashable Data) cs ->
  run cs [] !! self = Some c -> rebuild (samples c) = c.
Proof.
  intros Hcs Hc.
  assert (Hall : Forall (fun c => rebuild (samples c) = c /\ samples_hashable c)
                   (run cs ([] : heap Data))).
  { apply (run_inv _ (fun s => Meta_hashable (meta s))).
    - split; [reflexivity | constructor].
    - intros s c0 Hs H0. apply rebuilt_add; assumption.
    - intros c0 [_ H0]. exact H0.
    - exact Hcs.
    - constructor. }
  exact (proj1 (Forall_lookup_1 _ _ _ _ Hall Hc)).
Qed.

Lemma rebuild_samples (ss : list (SampleBase Data)) :
  Forall (fun s => Meta_hashable (meta s)) ss -> samples (rebuild ss) = ss.
Proof.
  induction ss as [| s ss IH] using rev_ind; intros Hss.
  - reflexivity.
  - apply Forall_app in Hss. destruct Hss as [Hss Hs].
    inversion Hs as [| ? ? Hs' _]; subst.
    rewrite rebuild_snoc.
    destruct (add_sample_to_hashable s (rebuild ss) Hs') as (inf' & ->).
    simpl. rewrite (IH Hss). reflexivity.
Qed.

Lemma filter_hashable (p : SampleBase Data -> bool) (ss : list (SampleBase Data)) :
  Forall (fun s => Meta_hashable (meta s)) ss ->
  Forall (fun s => Meta_hashable (meta s)) (List.filter p ss).
Proof.
  induction 1 as [| s ss Hs _ IH]; simpl; [constructor |].
  destruct (p s); [constructor; assumption | exact IH].
Qed.

(** The new corpus of [filter] when its loop ends without exception. *)
Lemma add_all_matching_to_rebuild (ss : list (SampleBase Data)) (kw : kwargs) :
  Forall (fun s => Meta_hashable (meta s)) ss ->
  fst (add_all_matching_to ss kw CorpusBase_init) = Ok tt ->
  snd (add_all_matching_to ss kw CorpusBase_init) =
  rebuild (List.filter (matches kw) ss).
Proof.
  intros Hss Hok.
  pose proof (add_all_matching_to_samples ss kw CorpusBase_init Hss) as Hs.
  rewrite Hok in Hs. simpl in Hs. destruct Hs as (Hs & _).
  assert (HP : rebuild (samples (snd (add_all_matching_to ss kw CorpusBase_init)))
               = snd (add_all_matching_to ss kw CorpusBase_init) /\
               samples_hashable (snd (add_all_matching_to ss kw CorpusBase_init))).
  { apply (add_all_matching_to_inv
             (fun c => rebuild (samples c) = c /\ samples_hashable c)
             (fun s => Meta_hashable (meta s))).
    - intros s c0 Hs0 H0. apply rebuilt_add; assumption.
    - exact Hss.
    - split; [reflexivity | constructor]. }
  rewrite <- (proj1 HP), Hs. reflexivity.
Qed.

(** [filter] returns when the criteria have no key [self] and the test of
    [add_sample_matching] returns on every sample, and then the heap has
    one more corpus, made of the samples on which it is true. *)
Lemma filter_ok h (self : loc) c (kw : kwargs) :
  h !! self = Some c -> samples_hashable c ->
  dict_contains String.eqb "self" kw = false ->
  (forall s, In s (samples c) -> exists b, matching_outcome s kw = Ok b) ->
  filter self kw h =
  (Ok (length h), h ++ [rebuild (List.filter (matches kw) (samples c))]).
Proof.
  intros Hc Hh Hself Hdef. rewrite (filter_at _ _ _ _ Hc Hself).
  pose proof (add_all_matching_to_samples (samples c) kw CorpusBase_init Hh) as Hs.
  destruct (fst (add_all_matching_to (samples c) kw CorpusBase_init))
    as [[] | e] eqn:Hfst.
  - rewrite (add_all_matching_to_rebuild _ _ Hh Hfst). reflexivity.
  - destruct Hs as (s & Hin & Hr). destruct (Hdef s Hin) as (b & Hb). congruence.
Qed.

Lemma filter_ok_inv h h' (self new : loc) c (kw : kwargs) :
  h !! self = Some c -> samples_hashable c ->
  filter self kw h = (Ok new, h') ->
  new = length h /\
  h' = h ++ [rebuild (List.filter (matches kw) (samples c))] /\
  dict_contains String.eqb "self" kw = false /\
  forall s, In s (samples c) -> exists b, matching_outcome s kw = Ok b.
Proof.
  intros Hc Hh.
  destruct (dict_contains String.eqb "self" kw) eqn:Hself;
    [rewrite (filter_self_keyword _ _ _ Hself); discriminate |].
  rewrite (filter_at _ _ _ _ Hc Hself).
  pose proof (add_all_matching_to_samples (samples c) kw CorpusBase_init Hh) as Hs.
  destruct (fst (add_all_matching_to (samples c) kw CorpusBase_init))
    as [[] | e] eqn:Hfst; [| discriminate].
  intros [= <- <-]. split; [reflexivity |]. split; [| split; [reflexivity |]].
  - rewrite (add_all_matching_to_rebuild _ _ Hh Hfst). reflexivity.
  - destruct Hs as (_ & Hall). intros s Hin.
    rewrite List.Forall_forall in Hall. exact (Hall s Hin).
Qed.

Lemma matches_true (kw : kwargs) s :
  matches kw s = true <-> call_match (meta s) kw = Ok true.
Proof.
  unfold matches. destruct (call_match (meta s) kw) as [[] | e];
    split; congruence.
Qed.

Lemma call_match_Ok (m : Meta) (kw : kwargs) (b : bool) :
  call_match m kw = Ok b ->
  dict_get String.eqb "match" m = None /\
  dict_contains String.eqb "self" kw = false /\
  Meta_match m kw = Ok b.
Proof.
  unfold call_match.
  destruct (dict_get String.eqb "match" m); [discriminate |].
  destruct (dict_contains String.eqb "self" kw); [discriminate |].
  intros E. repeat split. exact E.
Qed.

Lemma matching_outcome_Ok_inv s (kw : kwargs) (b : bool) :
  matching_outcome s kw = Ok b ->
  dict_contains String.eqb "self" kw = false /\
  dict_contains String.eqb "sample" kw = false /\
  dict_get String.eqb "match" (meta s) = None /\
  Meta_match (meta s) kw = Ok b.
Proof.
  unfold matching_outcome.
  destruct (dict_contains String.eqb "self" kw); [discriminate |].
  destruct (dict_contains String.eqb "sample" kw); [discriminate |].
  intros E. apply call_match_Ok in E. destruct E as (Hm & _ & E).
  repeat split; assumption.
Qed.

Lemma matching_outcome_eq s (kw : kwargs) :
  dict_contains String.eqb "self" kw = false ->
  dict_contains String.eqb "sample" kw = false ->
  dict_get String.eqb "match" (meta s) = None ->
  matching_outcome s kw = Meta_match (meta s) kw.
Proof.
  intros Hself Hsample Hmatch. unfold matching_outcome, call_match.
  rewrite Hself, Hsample, Hmatch. reflexivity.
Qed.

Lemma dict_contains_app {V : Type} (k : string) (d1 d2 : list (string * V)) :
  dict_contains String.eqb k (d1 ++ d2) =
  dict_contains String.eqb k d1 || dict_contains String.eqb k d2.
Proof.
  unfold dict_contains. induction d1 as [| [k' v] d1 IH]; simpl.
  - reflexivity.
  - destruct (String.eqb k' k); [reflexivity | exact IH].
Qed.

Lemma matches_app (kw1 kw2 : kwargs) s :
  matches (kw1 ++ kw2) s = matches kw1 s && matches kw2 s.
Proof.
  unfold matches, call_match. rewrite dict_contains_app, Meta_match_app.
  destruct (dict_get String.eqb "match" (meta s)); [reflexivity |].
  destruct (dict_contains String.eqb "self" kw1); simpl; [reflexivity |].
  destruct (dict_contains String.eqb "self" kw2); simpl;
    destruct (Meta_match (meta s) kw1) as [[] | e]; reflexivity.
Qed.

Lemma filter_andb {A : Type} (f g : A -> bool) (l : list A) :
  List.filter (fun x => f x && g x) l = List.filter g (List.filter f l).
Proof.
  induction l as [| x l IH]; simpl; [reflexivity |].
  destruct (f x); simpl; [destruct (g x); rewrite IH; reflexivity | exact IH].
Qed.

(** The criterion of a single value that is not a list, on a name that
    the class does not bind, selects the samples whose field has that
    value. *)
Lemma Meta_match_single (self : Meta) (f : string) (v : value) (b : bool) :
  isinstance_list v = false ->
  class_lookup f = None ->
  Meta_match self [(f, v)] = Ok b ->
  match dict_get String.eqb f self with
  | Some a => py_eq a v
  | None => false
  end = b.
Proof.
  intros Hv Hf. rewrite Meta_match_cons.
  unfold getattribute, object_getattribute.
  rewrite (class_lookup_None _ Hf), Hf.
  destruct (dict_get String.eqb "__getattribute__" self); [discriminate |].
  destruct (dict_get String.eqb f self) as [a |]; [| discriminate].
  unfold obj_mismatch, mismatch, py_ne. rewrite Hv. simpl.
  destruct (py_eq a v); simpl; congruence.
Qed.

Lemma has_value_outcome (f : string) (v : value) s (b : bool) :
  isinstance_list v = false ->
  class_lookup f = None ->
  matching_outcome s [(f, v)] = Ok b -> has_value f v s = b.
Proof.
  intros Hv Hf H. apply matching_outcome_Ok in H. destruct H as (_ & H).
  exact (Meta_match_single _ _ _ _ Hv Hf H).
Qed.

Lemma has_value_matches (f : string) (v : value) s :
  isinstance_list v = false ->
  class_lookup f = None ->
  matches [(f, v)] s = true -> has_value f v s = true.
Proof.
  intros Hv Hf H. apply matches_true, call_match_Ok in H.
  destruct H as (_ & _ & H). exact (Meta_match_single _ _ _ _ Hv Hf H).
Qed.

(** The samples of the new corpus of [filter], whether its loop ends or
    raises: samples of the source, in their order, on which [match] is
    true. *)
Lemma add_all_matching_to_selected (ss : list (SampleBase Data)) (kw : kwargs) c :
  exists ss',
    samples (snd (add_all_matching_to ss kw c)) = samples c ++ ss' /\
    ss' `sublist_of` ss /\
    Forall (fun s => matches kw s = true) ss'.
Proof.
  revert c. induction ss as [| s ss IH]; intros c; simpl.
  - exists []. rewrite app_nil_r. repeat split; constructor.
  - rewrite add_sample_matching_to_eq.
    destruct (matching_outcome s kw) as [[] | e] eqn:Hm.
    + destruct (add_sample_to_cases s c) as [(inf' & -> & _) | (inf' & ->)].
      * destruct (IH {| samples := samples c ++ [s]; info := inf' |})
          as (ss' & E & Hsub & Hall).
        exists (s :: ss'). split; [| split].
        -- rewrite E. simpl. rewrite <- app_assoc. reflexivity.
        -- apply sublist_skip, Hsub.
        -- constructor; [exact (matches_outcome _ _ _ Hm) | exact Hall].
      * exists []. simpl. rewrite app_nil_r.
        repeat split; [apply sublist_nil_l | constructor].
    + destruct (IH c) as (ss' & E & Hsub & Hall).
      exists ss'. split; [exact E | split; [apply sublist_cons, Hsub | exact Hall]].
    + exists []. simpl. rewrite app_nil_r.
      repeat split; [apply sublist_nil_l | constructor].
Qed.

Lemma filter_length_sublist {A : Type} (p : A -> bool) (l l' : list A) :
  l' `sublist_of` l ->
  (length (List.filter p l') <= length (List.filter p l))%nat.
Proof.
  induction 1 as [| x l1 l2 _ IH | x l1 l2 _ IH]; simpl.
  - lia.
  - destruct (p x); simpl; lia.
  - destruct (p x); simpl; lia.
Qed.
End Rebuild.

(** ** Filtering: copies, composition and the index of the result *)

Section FilterTheorems.
Context {Data : Type}.
Implicit Types (h : heap Data) (c : CorpusBase Data) (s : SampleBase Data).

Lemma call_wf_hashable (cs : list call) :
  Forall (@call_wf Data) cs -> Forall (@call_hashable Data) cs.
Proof.
  apply Forall_impl. intros cl Hcl. unfold call_wf, call_hashable in *.
  eapply Forall_impl; [| exact Hcl]. intros s [_ H]. exact H.
Qed.

(** X6: Two corpora built by calls that hold the same samples in the same
    order have the same index, however each was built: by [add_sample],
    by [add_sample_matching] or by [filter]. *)
Theorem index_determined_by_samples (cs1 cs2 : list call) (l1 l2 : loc) c1 c2 :
  Forall (@call_hashable Data) cs1 ->
  Forall (@call_hashable Data) cs2 ->
  run cs1 [] !! l1 = Some c1 ->
  run cs2 [] !! l2 = Some c2 ->
  samples c1 = samples c2 ->
  info c1 = info c2.
Proof.
  intros H1 H2 Hc1 Hc2 E.
  rewrite <- (run_rebuilt cs1 l1 c1 H1 Hc1), <- (run_rebuilt cs2 l2 c2 H2 Hc2), E.
  reflexivity.
Qed.

(** X7: [filter] without criteria, on a corpus none of whose samples has a
    metadata field named [match] (such a field hides the method, and the
    call of it raises), does not raise and returns a copy of the corpus:
    a new corpus with the same samples and the same index. *)
Theorem filter_no_criteria (cs : list call) (self : loc) c :
  Forall (@call_hashable Data) cs ->
  run cs [] !! self = Some c ->
  Forall (fun s => dict_get String.eqb "match" (meta s) = None) (samples c) ->
  filter self [] (run cs []) = (Ok (length (run cs [])), run cs [] ++ [c]).
Proof.
  intros Hcs Hc Hmatch. rewrite List.Forall_forall in Hmatch.
  rewrite (filter_ok _ _ _ [] Hc (run_samples_hashable cs self c Hc) eq_refl).
  - rewrite (List.filter_ext_in (matches []) (fun _ => true)).
    + rewrite List.filter_true, (run_rebuilt cs self c Hcs Hc). reflexivity.
    + intros s Hin. unfold matches, call_match.
      rewrite (Hmatch s Hin). reflexivity.
  - intros s Hin. exists true. unfold matching_outcome, call_match. simpl.
    rewrite (Hmatch s Hin). reflexivity.
Qed.

(** X8: Filtering the result of a filter: when both calls return, the second
    corpus holds the samples of the source that pass both criteria, and
    it is the corpus that one [filter] call with the criteria of both
    returns, the second criteria having no key [sample] (the second call
    binds that name to no sample when the first one returned none). *)
Theorem filter_filter (cs : list call) (self l1 l2 : loc) c (kw1 kw2 : kwargs)
    (h1 h2 : heap Data) :
  run cs [] !! self = Some c ->
  dict_contains String.eqb "sample" kw2 = false ->
  filter self kw1 (run cs []) = (Ok l1, h1) ->
  filter l1 kw2 h1 = (Ok l2, h2) ->
  exists c2,
    h2 !! l2 = Some c2 /\
    samples c2 =
      List.filter (matches kw2) (List.filter (matches kw1) (samples c)) /\
    filter self (kw1 ++ kw2) (run cs []) = (Ok l1, run cs [] ++ [c2]).
Proof.
  intros Hc Hsample2 H1 H2.
  pose proof (run_samples_hashable cs self c Hc) as Hh.
  destruct (filter_ok_inv _ _ _ _ _ _ Hc Hh H1) as (-> & -> & Hself1 & Hdef1).
  set (ss1 := List.filter (matches kw1) (samples c)) in *.
  assert (Hss1 : Forall (fun s => Meta_hashable (meta s)) ss1)
    by (apply filter_hashable, Hh).
  assert (Hc1 : (run cs [] ++ [rebuild ss1]) !! length (run cs [])
                = Some (rebuild ss1)) by (apply list_lookup_middle; reflexivity).
  assert (Hh1 : samples_hashable (rebuild ss1))
    by (unfold samples_hashable; rewrite (rebuild_samples _ Hss1); exact Hss1).
  destruct (filter_ok_inv _ _ _ _ _ _ Hc1 Hh1 H2) as (-> & -> & Hself2 & Hdef2).
  rewrite (rebuild_samples _ Hss1) in *.
  exists (rebuild (List.filter (matches kw2) ss1)). split; [| split].
  - apply list_lookup_middle. reflexivity.
  - apply rebuild_samples, filter_hashable, Hss1.
  - rewrite (filter_ok _ _ _ (kw1 ++ kw2) Hc Hh).
    + rewrite (List.filter_ext (matches (kw1 ++ kw2))
                 (fun s => matches kw1 s && matches kw2 s))
        by (intros s; apply matches_app).
      rewrite filter_andb. reflexivity.
    + rewrite dict_contains_app, Hself1, Hself2. reflexivity.
    + intros s Hin. destruct (Hdef1 s Hin) as (b1 & Hb1).
      destruct (matching_outcome_Ok_inv _ _ _ Hb1) as (_ & Hsample1 & Hm & HM1).
      rewrite matching_outcome_eq;
        [| rewrite dict_contains_app, Hself1, Hself2; reflexivity
         | rewrite dict_contains_app, Hsample1, Hsample2; reflexivity
         | exact Hm].
      rewrite Meta_match_app, HM1. destruct b1; [| eauto].
      destruct (Hdef2 s) as (b2 & Hb2).
      { apply List.filter_In. split; [exact Hin |].
        exact (matches_outcome _ _ _ Hb1). }
      apply matching_outcome_Ok in Hb2. destruct Hb2 as (_ & Hb2). eauto.
Qed.

(** X9: Filtering the result of a filter again with the same criteria never
    raises and returns a copy of it. *)
Theorem filter_idempotent (cs : list call) (self l1 : loc) c (kw : kwargs)
    (h1 : heap Data) :
  run cs [] !! self = Some c ->
  filter self kw (run cs []) = (Ok l1, h1) ->
  exists c1, h1 !! l1 = Some c1 /\
             filter l1 kw h1 = (Ok (S l1), h1 ++ [c1]).
Proof.
  intros Hc H1.
  pose proof (run_samples_hashable cs self c Hc) as Hh.
  destruct (filter_ok_inv _ _ _ _ _ _ Hc Hh H1) as (-> & -> & Hself & Hdef).
  set (ss1 := List.filter (matches kw) (samples c)) in *.
  assert (Hss1 : Forall (fun s => Meta_hashable (meta s)) ss1)
    by (apply filter_hashable, Hh).
  assert (Hc1 : (run cs [] ++ [rebuild ss1]) !! length (run cs [])
                = Some (rebuild ss1)) by (apply list_lookup_middle; reflexivity).
  assert (Hh1 : samples_hashable (rebuild ss1))
    by (unfold samples_hashable; rewrite (rebuild_samples _ Hss1); exact Hss1).
  exists (rebuild ss1). split; [exact Hc1 |].
  rewrite (filter_ok _ _ _ kw Hc1 Hh1 Hself).
  - rewrite (rebuild_samples _ Hss1), length_app. simpl.
    rewrite Nat.add_1_r.
    rewrite (List.forallb_filter_id (matches kw) ss1)
      by (unfold ss1; apply List.forallb_filter).
    reflexivity.
  - rewrite (rebuild_samples _ Hss1). intros s Hin.
    apply List.filter_In in Hin. exact (Hdef s (proj1 Hin)).
Qed.

(** X10: The number of samples that [filter(f=v)] returns, for a value [v]
    that is not a list and a name [f] that the class does not bind (no
    method, not [__module__], [__doc__] or an attribute of [object]), is
    the count that the index of the source holds for [(f, v)]. *)
Theorem filter_length_is_count (cs : list call) (self new : loc) c
    (f : string) (v : value) (h' : heap Data) :
  Forall (@call_wf Data) cs ->
  run cs [] !! self = Some c ->
  isinstance_list v = false ->
  class_lookup f = None ->
  filter self [(f, v)] (run cs []) = (Ok new, h') ->
  exists c', h' !! new = Some c' /\
             length (samples c') = index_count (info c) f v.
Proof.
  intros Hcs Hc Hv Hf H1.
  pose proof (run_samples_hashable cs self c Hc) as Hh.
  destruct (run_consistent cs self c Hcs Hc) as ((Ht & _) & _).
  destruct (filter_ok_inv _ _ _ _ _ _ Hc Hh H1) as (-> & -> & _ & Hdef).
  eexists. split; [apply list_lookup_middle; reflexivity |].
  rewrite (rebuild_samples _ (filter_hashable _ _ Hh)), Ht.
  unfold count_samples. f_equal. apply List.filter_ext_in. intros s Hin.
  destruct (Hdef s Hin) as (b & Hb).
  rewrite (matches_outcome _ _ _ Hb), (has_value_outcome _ _ _ _ Hv Hf Hb).
  reflexivity.
Qed.

Lemma count_samples_all (f : string) (v v' : value) (ss : list (SampleBase Data)) :
  Forall (fun s => has_value f v s = true) ss ->
  count_samples f v' ss = if py_eq v v' then length ss else 0%nat.
Proof.
  unfold count_samples. induction 1 as [| s ss Hs _ IH]; simpl.
  - destruct (py_eq v v'); reflexivity.
  - assert (E : has_value f v' s = py_eq v v').
    { unfold has_value in *.
      destruct (dict_get String.eqb f (meta s)) as [a |]; [| discriminate].
      apply py_eq_spec in Hs. subst a. reflexivity. }
    rewrite E. destruct (py_eq v v'); simpl; rewrite IH; reflexivity.
Qed.

(** The new corpus of [filter], consistent like its source, whether the
    loop of the call ends or raises. *)
Lemma filter_new_corpus (cs : list call) (self : loc) c (kw : kwargs) :
  Forall (@call_wf Data) cs ->
  run cs [] !! self = Some c ->
  dict_contains String.eqb "self" kw = false ->
  exists c' ss',
    snd (filter self kw (run cs [])) !! length (run cs []) = Some c' /\
    tally_exact c' /\
    samples c' = ss' /\
    ss' `sublist_of` samples c /\
    Forall (fun s => matches kw s = true) ss'.
Proof.
  intros Hcs Hc Hself. rewrite (filter_at _ _ _ _ Hc Hself). simpl.
  destruct (run_consistent cs self c Hcs Hc) as (_ & _ & Hwf).
  destruct (add_all_matching_to_selected (samples c) kw CorpusBase_init)
    as (ss' & E & Hsub & Hall).
  exists (snd (add_all_matching_to (samples c) kw CorpusBase_init)), ss'.
  split; [apply list_lookup_middle; reflexivity |].
  split; [| split; [exact E | split; assumption]].
  apply (add_all_matching_to_inv corpus_consistent sample_wf).
  - exact corpus_consistent_add.
  - exact Hwf.
  - exact corpus_consistent_init.
Qed.

(** X11: After [filter(f=v)], for a value [v] that is not a list and a name
    [f] that is not [self] and that the class does not bind, the index of
    the new corpus counts all its samples under [(f, v)] and none under
    another value of [f]; so also when the call raises on the way. *)
Theorem filter_single_value_index (cs : list call) (self : loc) c
    (f : string) (v : value) :
  Forall (@call_wf Data) cs ->
  run cs [] !! self = Some c ->
  isinstance_list v = false ->
  class_lookup f = None ->
  f <> "self" ->
  exists c',
    snd (filter self [(f, v)] (run cs [])) !! length (run cs []) = Some c' /\
    forall v', index_count (info c') f v' =
               if py_eq v v' then length (samples c') else 0%nat.
Proof.
  intros Hcs Hc Hv Hf Hne.
  assert (Hself : dict_contains String.eqb "self" [(f, v)] = false).
  { unfold dict_contains. simpl.
    rewrite (proj2 (String.eqb_neq f "self") Hne). reflexivity. }
  destruct (filter_new_corpus cs self c [(f, v)] Hcs Hc Hself)
    as (c' & ss' & Hc' & (Ht & _) & E & _ & Hall).
  exists c'. split; [exact Hc' |]. intros v'. rewrite Ht, E.
  apply count_samples_all.
  eapply Forall_impl; [| exact Hall].
  intros s Hs. exact (has_value_matches f v s Hv Hf Hs).
Qed.

(** X12: No count of the index of the new corpus of [filter] is above the
    count of the source for the same field and value (the criteria have
    no key [self]: with one the call makes no new corpus). *)
Theorem filter_counts_le (cs : list call) (self : loc) c (kw : kwargs) :
  Forall (@call_wf Data) cs ->
  run cs [] !! self = Some c ->
  dict_contains String.eqb "self" kw = false ->
  exists c',
    snd (filter self kw (run cs [])) !! length (run cs []) = Some c' /\
    forall f v, (index_count (info c') f v <= index_count (info c) f v)%nat.
Proof.
  intros Hcs Hc Hself.
  destruct (filter_new_corpus cs self c kw Hcs Hc Hself)
    as (c' & ss' & Hc' & (Ht' & _) & E & Hsub & _).
  destruct (run_consistent cs self c Hcs Hc) as ((Ht & _) & _).
  exists c'. split; [exact Hc' |]. intros f v. rewrite Ht', Ht, E.
  apply filter_length_sublist, Hsub.
Qed.
End FilterTheorems.

(** ** add_sample: values without hash, other corpora, the last place *)

Section AddSampleTheorems.
Context {Data : Type}.
Implicit Types (h : heap Data) (c : CorpusBase Data) (s : SampleBase Data).

Lemma track_metadata_other (items : Meta) (inf inf' : index) (key : string) :
  track_metadata items inf = (Ok tt, inf') ->
  ~ In key (dict_keys items) ->
  dict_get String.eqb key inf' = dict_get String.eqb key inf.
Proof.
  revert inf. induction items as [| [k v] rest IH]; intros inf; simpl.
  - intros [= <-] _. reflexivity.
  - destruct (track_item k v inf) as [[[] | e] inf1] eqn:H1; [| discriminate].
    intros Hrun Hnotin. rewrite (IH _ Hrun) by (intros Hin; apply Hnotin; right; exact Hin).
    rewrite (track_item_get _ _ _ _ key H1).
    destruct (String.eqb k key) eqn:E; [| reflexivity].
    apply String.eqb_eq in E. exfalso. apply Hnotin. left. exact E.
Qed.

(** The loop of [add_sample] up to a value without hash. *)
Lemma track_metadata_unhashable (before : Meta) (key : string) (val : value)
    (after : Meta) (inf : index) :
  Meta_hashable before -> hashable val = false ->
  exists inf1,
    track_metadata before inf = (Ok tt, inf1) /\
    track_metadata (before ++ (key, val) :: after) inf =
    (Raise TypeError_unhashable,
     if dict_contains String.eqb key inf1 then inf1
     else dict_set String.eqb key [] inf1).
Proof.
  unfold Meta_hashable. intros Hb Hval. revert inf.
  induction Hb as [| [k v] rest Hv _ IH]; intros inf.
  - exists inf. split; [reflexivity |]. simpl. unfold track_item.
    rewrite Hval. reflexivity.
  - destruct (track_item_hashable k v inf Hv) as (inf0 & H0).
    destruct (IH inf0) as (inf1 & Hrun & Hraise).
    exists inf1. simpl. rewrite H0. split; assumption.
Qed.

(** X13: When a value of the metadata has no hash, [add_sample] raises the
    [TypeError] and does not append the sample, but the index keeps what
    the loop wrote before: the field of that value has an entry, an empty
    one when the corpus did not know the field. *)
Theorem add_sample_unhashable h (self : loc) c s
    (before : Meta) (key : string) (val : value) (after : Meta) :
  h !! self = Some c ->
  meta s = before ++ (key, val) :: after ->
  Meta_hashable before ->
  hashable val = false ->
  exists inf',
    add_sample self s h =
    (Raise TypeError_unhashable,
     <[self := {| samples := samples c; info := inf' |}]> h) /\
    dict_contains String.eqb key inf' = true /\
    (dict_contains String.eqb key (info c) = false ->
     ~ In key (dict_keys before) ->
     dict_get String.eqb key inf' = Some []).
Proof.
  intros Hc Hmeta Hb Hval.
  destruct (track_metadata_unhashable before key val after (info c) Hb Hval)
    as (inf1 & Hrun & Hraise).
  exists (if dict_contains String.eqb key inf1 then inf1
          else dict_set String.eqb key [] inf1).
  split; [| split].
  - rewrite (add_sample_at _ _ _ _ Hc). unfold add_sample_to.
    rewrite Hmeta, Hraise. reflexivity.
  - destruct (dict_contains String.eqb key inf1) eqn:E; [exact E |].
    unfold dict_contains.
    rewrite (dict_get_set_eq String.eqb String.eqb_eq). reflexivity.
  - intros Hnew Hnotin.
    pose proof (track_metadata_other _ _ _ key Hrun Hnotin) as Hget.
    unfold dict_contains in *. rewrite Hget.
    destruct (dict_get String.eqb key (info c)); [discriminate |].
    apply (dict_get_set_eq String.eqb String.eqb_eq).
Qed.

(** X14: [add_sample] and [add_sample_matching] write to the corpus they are
    called on and to no other: a corpus and the corpora filtered from it
    do not share their lists or indexes. *)
Theorem add_sample_frame h (self l : loc) s (kw : kwargs) :
  l <> self ->
  snd (add_sample self s h) !! l = h !! l /\
  snd (add_sample_matching self s kw h) !! l = h !! l.
Proof.
  intros Hne.
  assert (Hadd : snd (add_sample self s h) !! l = h !! l).
  { destruct (h !! self) as [c |] eqn:Hc.
    - rewrite (add_sample_at _ _ _ _ Hc). simpl.
      apply list_lookup_insert_ne. congruence.
    - rewrite (add_sample_dangling _ _ _ Hc). reflexivity. }
  split; [exact Hadd |]. rewrite add_sample_matching_eq.
  destruct (matching_outcome s kw) as [[] | e]; [exact Hadd | |]; reflexivity.
Qed.

Lemma getitem_at h (self : loc) c (r : subscript) :
  h !! self = Some c -> getitem self r h = (list_getitem (samples c) r, h).
Proof. intros H. unfold getitem, bind, load, lift. rewrite H. reflexivity. Qed.

Lemma len_at h (self : loc) c :
  h !! self = Some c -> len self h = (Ok (Z.of_nat (length (samples c))), h).
Proof. intros H. unfold len, bind, load, ret. rewrite H. reflexivity. Qed.

(** X15: [add_sample] of a sample of hashable metadata returns, the length
    goes up by one, the sample is the last of the corpus, [corpus[-1]],
    and the samples that were there keep their places. *)
Theorem add_sample_appends h (self : loc) c s :
  h !! self = Some c ->
  Meta_hashable (meta s) ->
  exists h',
    add_sample self s h = (Ok tt, h') /\
    fst (len self h') = Ok (Z.of_nat (length (samples c)) + 1) /\
    fst (getitem self (Index (-1)) h') = Ok (One s) /\
    forall (i : nat) x,
      samples c !! i = Some x ->
      fst (getitem self (Index (Z.of_nat i)) h') = Ok (One x).
Proof.
  intros Hc Hs. destruct (add_sample_to_hashable s c Hs) as (inf' & E).
  set (c' := {| samples := samples c ++ [s]; info := inf' |}).
  exists (<[self := c']> h).
  assert (Hc' : <[self := c']> h !! self = Some c')
    by (apply list_lookup_insert_eq, (lookup_lt_Some _ _ _ Hc)).
  split; [| split; [| split]].
  - rewrite (add_sample_at _ _ _ _ Hc), E. reflexivity.
  - rewrite (len_at _ _ _ Hc'). simpl. rewrite length_app. simpl. f_equal. lia.
  - rewrite (getitem_at _ _ _ _ Hc'). simpl fst.
    apply (list_getitem_index_neg (samples c ++ [s]) 1 s).
    + rewrite length_app. simpl. lia.
    + rewrite length_app. simpl.
      replace (length (samples c) + 1 - 1)%nat with (length (samples c)) by lia.
      apply list_lookup_middle. reflexivity.
  - intros i x Hi. rewrite (getitem_at _ _ _ _ Hc'). simpl fst.
    apply list_getitem_index. simpl.
    rewrite lookup_app_l by exact (lookup_lt_Some _ _ _ Hi). exact Hi.
Qed.
End AddSampleTheorems.

(** ** Slices of negative step *)

Section ReverseSlice.
Context {A : Type}.
Implicit Types (l : list A).

Lemma take_strided_rev l (k : nat) :
  (k <= length l)%nat ->
  take_strided l (Z.of_nat k - 1) (-1) k = rev (take k l).
Proof.
  induction k as [| k IH]; intros Hk.
  - reflexivity.
  - destruct (lookup_lt_is_Some_2 l k) as [x Hx]; [lia |].
    rewrite (take_S_r _ _ _ Hx), rev_unit.
    cbn [take_strided].
    replace (Z.to_nat (Z.of_nat (S k) - 1)) with k by lia.
    rewrite Hx. f_equal.
    replace (Z.of_nat (S k) - 1 + -1) with (Z.of_nat k - 1) by lia.
    apply IH. lia.
Qed.

Lemma list_getitem_reverse l :
  list_getitem l (Slice None None (Some (-1))) = Ok (Several (rev l)).
Proof.
  unfold list_getitem. simpl default.
  change (-1 =? 0) with false. cbv iota.
  unfold slice_start, slice_stop, slice_length.
  change (-1 <? 0) with true. cbv iota.
  do 2 f_equal.
  destruct (Z.ltb_spec (-1) (Z.of_nat (length l) - 1)) as [Hpos | Hzero].
  - replace (Z.to_nat ((Z.of_nat (length l) - 1 - -1 - 1) / - -1 + 1))
      with (length l).
    + rewrite take_strided_rev by lia. rewrite take_ge by lia. reflexivity.
    + change (- -1) with 1. rewrite Z.div_1_r. lia.
  - destruct l; [reflexivity | simpl in Hzero; lia].
Qed.

Lemma list_getitem_step_zero l (start stop : option Z) :
  list_getitem l (Slice start stop (Some 0)) = Raise ValueError.
Proof. reflexivity. Qed.
End ReverseSlice.

(** X16: [corpus[::-1]] is the samples of the corpus in reverse order, and a
    slice of step zero raises [ValueError]. *)
Theorem getitem_reverse {Data : Type} (h : heap Data) (self : loc)
    (c : CorpusBase Data) :
  h !! self = Some c ->
  fst (getitem self (Slice None None (Some (-1))) h) =
    Ok (Several (rev (samples c))) /\
  forall start stop,
    fst (getitem self (Slice start stop (Some 0)) h) = Raise ValueError.
Proof.
  intros Hc. split.
  - rewrite (getitem_at _ _ _ _ Hc). apply list_getitem_reverse.
  - intros start stop. rewrite (getitem_at _ _ _ _ Hc). reflexivity.
Qed.

(** ** String representations *)

Lemma str_app_assoc (a b c : string) : (a +:+ b) +:+ c = a +:+ (b +:+ c).
Proof.
  induction a as [| x a IH]; [reflexivity |].
  change (String x ((a +:+ b) +:+ c) = String x (a +:+ (b +:+ c))).
  rewrite IH. reflexivity.
Qed.

Lemma str_drop_last_snoc (s : string) (a : Ascii.ascii) :
  str_drop_last (s +:+ String a EmptyString) = s.
Proof.
  induction s as [| b s IH]; [reflexivity |].
  change (String b s +:+ String a EmptyString)
    with (String b (s +:+ String a EmptyString)).
  destruct (s +:+ String a EmptyString) as [| x t] eqn:E.
  - destruct s; discriminate E.
  - change (str_drop_last (String b (String x t)))
      with (String b (str_drop_last (String x t))).
    rewrite IH. reflexivity.
Qed.

(** Lines written one after the other, each with its line feed, and the
    last character taken off: the lines joined by line feeds. *)
Lemma drop_last_lines (ls : list string) (p hd : string) :
  str_drop_last
    (fold_left (fun r x => r +:+ (x +:+ newline)) ls (p +:+ (hd +:+ newline))) =
  p +:+ String.concat newline (hd :: ls).
Proof.
  revert p hd. induction ls as [| x ls IH]; intros p hd.
  - simpl fold_left. rewrite <- str_app_assoc. unfold newline.
    rewrite str_drop_last_snoc. reflexivity.
  - simpl fold_left. rewrite (IH (p +:+ (hd +:+ newline)) x).
    change (String.concat newline (hd :: x :: ls))
      with (hd +:+ (newline +:+ String.concat newline (x :: ls))).
    rewrite !str_app_assoc. reflexivity.
Qed.

Lemma fold_left_map_lines {B : Type} (g : B -> string) (l : list B) (r : string) :
  fold_left (fun r item => r +:+ (g item +:+ newline)) l r =
  fold_left (fun r x => r +:+ (x +:+ newline)) (map g l) r.
Proof.
  revert r. induction l as [| x l IH]; intros r; simpl; [reflexivity | apply IH].
Qed.

Section StrTheorems.
Variable repr_str : string -> string.

(** X17: [str(meta)] is the line [Metadata:] followed by one line
    ["    field : value"] for each field, in the order of the fields, the
    lines joined by line feeds: the slice [r[:-1]] takes off the last
    line feed and nothing else, also when there is no field.  [str] of a
    sample puts the line of its payload before them; it raises instead
    when the metadata has a field named [__str__], which is what
    [self.meta.__str__] then reads. *)
Theorem Meta_str_lines {Data : Type} (data_str : Data -> string)
    (sample : SampleBase Data) :
  Meta_str repr_str (meta sample) =
    String.concat newline
      ("Metadata:" :: map (Meta_line repr_str) (meta sample)) /\
  SampleBase_str repr_str data_str sample =
    match dict_get String.eqb "__str__" (meta sample) with
    | Some _ => Raise TypeError_not_callable
    | None =>
        Ok (String.concat newline
              (("Data : " +:+ data_str (data sample))
                 :: "Metadata:" :: map (Meta_line repr_str) (meta sample)))
    end.
Proof.
  assert (E : Meta_str repr_str (meta sample) =
              String.concat newline
                ("Metadata:" :: map (Meta_line repr_str) (meta sample))).
  { unfold Meta_str.
    rewrite (fold_left_map_lines (Meta_line repr_str)).
    exact (drop_last_lines _ "" "Metadata:"). }
  split; [exact E |]. unfold SampleBase_str. rewrite E.
  destruct (dict_get String.eqb "__str__" (meta sample)); [reflexivity |].
  f_equal.
  change (String.concat newline
            (("Data : " +:+ data_str (data sample))
               :: "Metadata:" :: map (Meta_line repr_str) (meta sample)))
    with (("Data : " +:+ data_str (data sample)) +:+
          (newline +:+
           String.concat newline
             ("Metadata:" :: map (Meta_line repr_str) (meta sample)))).
  rewrite !str_app_assoc. reflexivity.
Qed.

Lemma fold_left_index_lines (inf : index) (r : string) :
  fold_left
    (fun r entry =>
       fold_left (fun r item => r +:+ (value_line repr_str item +:+ newline))
         (snd entry)
         (r +:+ (field_line (fst entry) (snd entry) +:+ newline)))
    inf r =
  fold_left (fun r x => r +:+ (x +:+ newline)) (index_lines repr_str inf) r.
Proof.
  revert r. induction inf as [| entry inf IH]; intros r; [reflexivity |].
  cbn [fold_left index_lines flat_map].
  rewrite IH, fold_left_app. cbn [fold_left].
  rewrite (fold_left_map_lines (value_line repr_str)). reflexivity.
Qed.

(** X18: [str(corpus)] is the line of the number of samples followed, for each
    field of the index, by the line of the field with the number of its
    values and one line for each value with its count, the lines joined
    by line feeds; for a corpus as [CorpusBase()] makes it, with no
    sample and an empty index, it is the first line alone. *)
Theorem CorpusBase_str_lines {Data : Type} (self : CorpusBase Data) :
  CorpusBase_str repr_str self =
  String.concat newline
    (("The dataset contains " +:+ pretty.pretty (length (samples self))
        +:+ " samples.")
       :: index_lines repr_str (info self)) /\
  CorpusBase_str repr_str (@CorpusBase_init Data) =
  "The dataset contains 0 samples.".
Proof.
  split; [| vm_compute; reflexivity].
  unfold CorpusBase_str. rewrite fold_left_index_lines.
  exact (drop_last_lines (index_lines repr_str (info self)) ""
           ("The dataset contains " +:+ pretty.pretty (length (samples self))
              +:+ " samples.")).
Qed.
End StrTheorems.

(** ** The outcome of match in general *)



End Properties.

(** * The properties on the corpus of the documentation *)

#[local] Existing Instance Example.cpython.



(** C2 (the code at the failing input): the object has no field [b], the
    criteria name it, and [match] returns false without raising, since the
    criterion on [a] before it fails. *)
Theorem match_unknown_field_not_raised :
  let self : Meta := Meta_init [("a", VInt 1)] in
  let kw : kwargs := [("a", VInt 2); ("b", VInt 3)] in
  In "b" (dict_keys kw) /\ ~ has_field self "b" /\
  Meta_match self kw = Ok false.
Proof.
  simpl. split; [right; left; reflexivity |].
  split; [| reflexivity].
  intros [v Hv]. discriminate Hv.
Qed.

Lemma all_samples_wf : Forall sample_wf Example.all_samples.
Proof.
  repeat (apply Forall_cons; [apply SampleBase_init_wf; repeat constructor |]).
  apply Forall_nil.
Qed.

Lemma build_wf : Forall call_wf Example.build.
Proof.
  unfold Example.build. apply Forall_cons; [apply Forall_nil |].
  apply Forall_map. eapply Forall_impl; [| exact all_samples_wf].
  intros s Hs. unfold call_wf. simpl. apply Forall_cons; [exact Hs | apply Forall_nil].
Qed.

Lemma build_and_filter_wf : Forall call_wf Example.build_and_filter.
Proof.
  unfold Example.build_and_filter. apply Forall_app. split; [exact build_wf |].
  apply Forall_cons; [apply Forall_nil | apply Forall_nil].
Qed.

Lemma build_mixed_wf : Forall call_wf Example.build_mixed.
Proof.
  unfold Example.build_mixed, call_wf. simpl.
  repeat (apply Forall_cons;
          [first [apply Forall_nil
                 | apply Forall_cons;
                   [apply SampleBase_init_wf; repeat constructor | apply Forall_nil]] |]).
  apply Forall_nil.
Qed.

Lemma built_lookup : run Example.build [] !! 0%nat = Some Example.built.
Proof. vm_compute. reflexivity. Qed.

Lemma filtered_lookup :
  run Example.build_and_filter [] !! 1%nat = Some Example.filtered.
Proof. vm_compute. reflexivity. Qed.

Lemma mixed_lookup : run Example.build_mixed [] !! 0%nat = Some Example.mixed.
Proof. vm_compute. reflexivity. Qed.

Lemma index_is_tally_witness : tally_exact Example.filtered.
Proof.
  exact (index_is_tally Example.build_and_filter 1%nat Example.filtered
           build_and_filter_wf filtered_lookup).
Defined.

(** The example of the documentation: four samples, two of them of a male
    speaker; the index of field [sex] is [{female: 2, male: 2}], and the
    corpus filtered on [sex='male'] holds the two samples of bob. *)
Lemma example_scenario :
  length (samples Example.built) = 4%nat /\
  dict_get String.eqb "sex" (info Example.built) =
    Some [(VStr "female", 2%nat); (VStr "male", 2%nat)] /\
  filter 0%nat [("sex", VStr "male")] (run Example.build []) =
    (Ok 1%nat, [Example.built; Example.filtered]) /\
  samples Example.filtered = [Example.bob_one; Example.bob_two].
Proof. vm_compute. repeat split. Qed.

(** C5, as stated, fails: of two samples, one with a field [speaker] and
    one without, the counts of [speaker] add up to one, not to the length
    of the corpus. *)
Lemma field_counts_sum_counterexample :
  run Example.build_mixed [] !! 0%nat = Some Example.mixed /\
  (exists s, In s (samples Example.mixed) /\ has_field (meta s) "speaker") /\
  sum_counts (info Example.mixed) "speaker" = 1%nat /\
  length (samples Example.mixed) = 2%nat /\
  sum_counts (info Example.mixed) "speaker" <> length (samples Example.mixed).
Proof.
  split; [exact mixed_lookup |]. split.
  - exists Example.only_speaker. split; [left; vm_compute; reflexivity |].
    exists (VStr "carol"). vm_compute. reflexivity.
  - split; [vm_compute; reflexivity |]. split; [vm_compute; reflexivity |].
    vm_compute. discriminate.
Qed.

Lemma field_counts_sum_witness :
  sum_counts (info Example.mixed) "age" =
    count_field "age" (samples Example.mixed) /\
  (Forall (fun s => has_field (meta s) "age") (samples Example.mixed) ->
   sum_counts (info Example.mixed) "age" = length (samples Example.mixed)).
Proof.
  exact (field_counts_sum Example.build_mixed 0%nat Example.mixed "age"
           build_mixed_wf mixed_lookup).
Defined.




Lemma add_sample_matching_error_atomic_witness :
  let kw : kwargs := [("spekaer", VStr "bob")] in
  add_sample_matching 0%nat Example.bob_one kw [Example.built] =
    (Raise (AttributeError "spekaer"), [Example.built]) /\
  ([Example.built] = [Example.built] /\
   Meta_match (meta Example.bob_one) kw = Raise (AttributeError "spekaer")).
Proof.
  intros kw.
  assert (H : add_sample_matching 0%nat Example.bob_one kw [Example.built] =
              (Raise (AttributeError "spekaer"), [Example.built]))
    by (vm_compute; reflexivity).
  split; [exact H |].
  exact (add_sample_matching_error_atomic [Example.built] [Example.built] 0%nat
           Example.bob_one kw "spekaer" H).
Defined.

Lemma getitem_after_adding_witness :
  Forall (fun s : SampleBase string => Meta_hashable (meta s)) Example.all_samples /\
  fst (len 0%nat (run Example.build [])) = Ok 4 /\
  fst (getitem 0%nat (Index 2) (run Example.build [])) = Ok (One Example.bob_one) /\
  fst (getitem 0%nat (Index 4) (run Example.build [])) = Raise IndexError.
Proof.
  assert (Hh : Forall (fun s : SampleBase string => Meta_hashable (meta s))
                 Example.all_samples).
  { eapply Forall_impl; [| exact all_samples_wf]. intros s [_ H]. exact H. }
  split; [exact Hh |].
  destruct (getitem_after_adding Example.all_samples Hh)
    as (Hlen & Hidx & Hout & _).
  split; [exact Hlen |]. split.
  - exact (Hidx 2%nat Example.bob_one eq_refl).
  - apply (Hout 4). left. simpl. lia.
Defined.

(** C7, as stated, fails on slices: on the corpus of four samples the
    slice [corpus[5:10]], beyond its length, is the empty list and no
    error. *)
Lemma getitem_slice_counterexample :
  fst (len 0%nat (run Example.build [])) = Ok 4 /\
  fst (getitem 0%nat (Slice (Some 5) (Some 10) None) (run Example.build [])) =
    Ok (Several []) /\
  ~ exists e, fst (getitem 0%nat (Slice (Some 5) (Some 10) None)
                     (run Example.build [])) = Raise e.
Proof.
  assert (H : fst (getitem 0%nat (Slice (Some 5) (Some 10) None)
                     (run Example.build [])) = Ok (Several []))
    by (vm_compute; reflexivity).
  split; [vm_compute; reflexivity |]. split; [exact H |].
  intros [e He]. rewrite H in He. discriminate.
Qed.

(** The unknown key is not reported either by [filter] when the criterion
    before it fails on every sample. *)
Lemma filter_unknown_field_not_raised :
  let kw : kwargs := [("sex", VStr "other"); ("spekaer", VStr "bob")] in
  Forall (fun s : SampleBase string => ~ has_field (meta s) "spekaer")
         (samples Example.built) /\
  fst (filter 0%nat kw [Example.built]) = Ok 1%nat.
Proof.
  split; [| vm_compute; reflexivity].
  repeat (apply Forall_cons; [intros [v Hv]; vm_compute in Hv; discriminate |]).
  apply Forall_nil.
Qed.

(** C9 (the code at the failing inputs): with matplotlib installed,
    [plot] raises on a sample of one channel, at the read of the global
    [np] that the module never binds, and on a sample of two channels, at
    the read of the local [data] that only the single-channel branch
    binds; no spectrogram is drawn. *)
Theorem plot_raises :
  importable Example.all_installed "matplotlib.pyplot" = true /\
  ndim (data (base Example.mono)) = 1%nat /\
  plot Example.all_installed Example.mono 512 384 [] = Raise (NameError "np") /\
  shape (data (base Example.stereo)) = [8%nat; 2%nat] /\
  plot Example.all_installed Example.stereo 512 384 [] =
    Raise (UnboundLocalError "data").
Proof. repeat split. Qed.

Lemma Meta_init_roundtrip_witness :
  let attr : kwargs := [("speaker", VStr "bob"); ("age", VInt 48)] in
  call_as_dict (Meta_init attr) =
    (if dict_contains String.eqb "as_dict" attr
     then Raise TypeError_not_callable else Ok attr) /\
  forall key,
    object_getattribute (Meta_init attr) key =
    match dict_get String.eqb key attr with
    | Some v => Ok (Data v)
    | None => match class_lookup key with
              | Some o => Ok o
              | None => Raise (AttributeError key)
              end
    end.
Proof.
  apply (Meta_init_roundtrip [("speaker", VStr "bob"); ("age", VInt 48)]).
  - apply NoDup_cons_2; [| apply NoDup_singleton].
    rewrite list_elem_of_In. intros [H | []]. discriminate H.
  - apply Forall_cons; [| apply Forall_cons; [| apply Forall_nil]];
      intros [H | [H | [H | [H | [H | []]]]]]; discriminate H.
Defined.

(** The names that the class binds are read like fields: a method is
    equal to no value, [__module__] is the name of the module, and only
    a name that neither the object nor the class has raises. *)
Lemma match_class_attributes :
  let self : Meta := Meta_init [("speaker", VStr "bob")] in
  Meta_match self [("as_dict", VInt 1)] = Ok false /\
  Meta_match self [("__module__", VStr "pyroomacoustics.datasets.base")] =
    Ok true /\
  Meta_match self [("spekaer", VStr "bob")] = Raise (AttributeError "spekaer").
Proof. vm_compute. repeat split. Qed.

(** A metadata field named [match] hides the method: the call of it
    raises, whatever the criteria; and a criterion named [sample] is a
    second value for the parameter of [add_sample_matching]. *)
Lemma filter_type_errors :
  let s : SampleBase string := SampleBase_init "0.4" [("match", VInt 1)] in
  call_match (meta s) [] = Raise TypeError_not_callable /\
  fst (filter 0%nat [] [{| samples := [s]; info := [] |}]) =
    Raise TypeError_not_callable /\
  fst (filter 0%nat [("sample", VStr "x")] (run Example.build [])) =
    Raise TypeError_multiple_values /\
  filter 0%nat [("self", VStr "x")] (run Example.build []) =
    (Raise TypeError_multiple_values, run Example.build []).
Proof. vm_compute. repeat split. Qed.

Lemma Meta_match_Permutation_witness :
  let self : Meta := [("speaker", VStr "bob"); ("age", VInt 48)] in
  Meta_match self [("age", VInt 48); ("speaker", VStr "alice")] =
  Meta_match self [("speaker", VStr "alice"); ("age", VInt 48)].
Proof.
  apply (Meta_match_Permutation
           [("speaker", VStr "bob"); ("age", VInt 48)]
           [("age", VInt 48); ("speaker", VStr "alice")]
           [("speaker", VStr "alice"); ("age", VInt 48)]).
  - apply perm_swap.
  - intros key [<- | [<- | []]]; eexists; reflexivity.
Defined.

Lemma build_hashable : Forall call_hashable Example.build.
Proof. exact (call_wf_hashable _ build_wf). Qed.

Lemma build_and_filter_hashable : Forall call_hashable Example.build_and_filter.
Proof. exact (call_wf_hashable _ build_and_filter_wf). Qed.

Lemma build_male_hashable : Forall call_hashable Example.build_male.
Proof.
  unfold Example.build_male, call_hashable. simpl.
  repeat (apply Forall_cons;
          [first [apply Forall_nil
                 | apply Forall_cons;
                   [apply Meta_init_hashable; repeat constructor
                   | apply Forall_nil]] |]).
  apply Forall_nil.
Qed.

Lemma male_lookup : run Example.build_male [] !! 0%nat = Some Example.male.
Proof. vm_compute. reflexivity. Qed.

Lemma filter_male_built :
  filter 0%nat [("sex", VStr "male")] (run Example.build []) =
  (Ok 1%nat, [Example.built; Example.filtered]).
Proof. vm_compute. reflexivity. Qed.

Lemma index_determined_by_samples_witness :
  samples Example.filtered = samples Example.male /\
  info Example.filtered = info Example.male.
Proof.
  assert (E : samples Example.filtered = samples Example.male)
    by (vm_compute; reflexivity).
  split; [exact E |].
  exact (index_determined_by_samples
           Example.build_and_filter Example.build_male 1%nat 0%nat
           Example.filtered Example.male
           build_and_filter_hashable build_male_hashable
           filtered_lookup male_lookup E).
Defined.

Lemma filter_no_criteria_witness :
  filter 0%nat [] (run Example.build []) =
  (Ok (length (run Example.build [])), run Example.build [] ++ [Example.built]).
Proof.
  apply (filter_no_criteria Example.build 0%nat Example.built
           build_hashable built_lookup).
  unfold Example.built. cbn [samples].
  repeat (apply Forall_cons; [reflexivity |]). apply Forall_nil.
Defined.

Lemma filter_filter_witness :
  let kw1 : kwargs := [("sex", VStr "male")] in
  let kw2 : kwargs := [("number", VStr "one")] in
  let h1 := [Example.built; Example.filtered] in
  exists c2,
    snd (filter 1%nat kw2 h1) !! 2%nat = Some c2 /\
    samples c2 =
      List.filter (matches kw2) (List.filter (matches kw1) (samples Example.built)) /\
    filter 0%nat (kw1 ++ kw2) (run Example.build []) =
      (Ok 1%nat, run Example.build [] ++ [c2]).
Proof.
  intros kw1 kw2 h1.
  assert (H2 : filter 1%nat kw2 h1 = (Ok 2%nat, snd (filter 1%nat kw2 h1)))
    by (vm_compute; reflexivity).
  exact (filter_filter Example.build 0%nat 1%nat 2%nat Example.built kw1 kw2
           h1 (snd (filter 1%nat kw2 h1)) built_lookup eq_refl
           filter_male_built H2).
Defined.

(** Without the condition on the second criteria the two calls and the
    single call differ: no sample passes the first criteria, the second
    call binds the key [sample] to no sample and returns, and the single
    call raises on the first sample of the source. *)
Lemma filter_filter_keyword_sample :
  let kw1 : kwargs := [("sex", VStr "other")] in
  let kw2 : kwargs := [("sample", VStr "x")] in
  exists h1 h2,
    filter 0%nat kw1 (run Example.build []) = (Ok 1%nat, h1) /\
    filter 1%nat kw2 h1 = (Ok 2%nat, h2) /\
    fst (filter 0%nat (kw1 ++ kw2) (run Example.build [])) =
      Raise TypeError_multiple_values.
Proof.
  do 2 eexists. split; [vm_compute; reflexivity |].
  split; vm_compute; reflexivity.
Qed.

Lemma filter_idempotent_witness :
  let kw : kwargs := [("sex", VStr "male")] in
  let h1 := [Example.built; Example.filtered] in
  exists c1, h1 !! 1%nat = Some c1 /\
             filter 1%nat kw h1 = (Ok 2%nat, h1 ++ [c1]).
Proof.
  exact (filter_idempotent Example.build 0%nat 1%nat Example.built
           [("sex", VStr "male")] [Example.built; Example.filtered]
           built_lookup filter_male_built).
Defined.

Lemma filter_length_is_count_witness :
  exists c', [Example.built; Example.filtered] !! 1%nat = Some c' /\
             length (samples c') =
             index_count (info Example.built) "sex" (VStr "male").
Proof.
  exact (filter_length_is_count Example.build 0%nat 1%nat Example.built
           "sex" (VStr "male") [Example.built; Example.filtered]
           build_wf built_lookup eq_refl eq_refl filter_male_built).
Defined.

Lemma filter_single_value_index_witness :
  exists c',
    snd (filter 0%nat [("sex", VStr "male")] (run Example.build []))
      !! length (run Example.build []) = Some c' /\
    forall v', index_count (info c') "sex" v' =
               if py_eq (VStr "male") v' then length (samples c') else 0%nat.
Proof.
  apply (filter_single_value_index Example.build 0%nat Example.built
           "sex" (VStr "male") build_wf built_lookup eq_refl eq_refl).
  discriminate.
Defined.

Lemma filter_counts_le_witness :
  exists c',
    snd (filter 0%nat [("number", VList [VStr "one"; VStr "three"])]
           (run Example.build []))
      !! length (run Example.build []) = Some c' /\
    forall f v,
      (index_count (info c') f v <= index_count (info Example.built) f v)%nat.
Proof.
  exact (filter_counts_le Example.build 0%nat Example.built
           [("number", VList [VStr "one"; VStr "three"])] build_wf built_lookup
           eq_refl).
Defined.

Lemma filter_propagates_witness :
  let kw : kwargs := [("spekaer", VStr "bob")] in
  exists e',
    fst (filter 0%nat kw (run Example.build [])) = Raise e' /\
    (e' = TypeError_multiple_values \/
     exists s, In s (samples Example.built) /\
               call_match (meta s) kw = Raise e').
Proof.
  apply (filter_propagates Example.build 0%nat Example.built
           [("spekaer", VStr "bob")] built_lookup).
  exists Example.alice_one, (AttributeError "spekaer").
  split; [left; vm_compute; reflexivity | vm_compute; reflexivity].
Defined.

Lemma add_sample_unhashable_witness :
  let s : SampleBase string :=
    {| data := "0.3";
       meta := [("speaker", VStr "dave"); ("tags", VList [VStr "a"])] |} in
  exists inf',
    add_sample 0%nat s [CorpusBase_init] =
    (Raise TypeError_unhashable,
     <[0%nat := {| samples := []; info := inf' |}]> [CorpusBase_init]) /\
    dict_contains String.eqb "tags" inf' = true /\
    (dict_contains String.eqb "tags" (info (@CorpusBase_init string)) = false ->
     ~ In "tags" (dict_keys [("speaker", VStr "dave")]) ->
     dict_get String.eqb "tags" inf' = Some []).
Proof.
  intros s.
  apply (add_sample_unhashable [CorpusBase_init] 0%nat CorpusBase_init s
           [("speaker", VStr "dave")] "tags" (VList [VStr "a"]) []).
  - reflexivity.
  - reflexivity.
  - repeat constructor.
  - reflexivity.
Defined.

Lemma add_sample_frame_witness :
  let h := [Example.built; Example.filtered] in
  snd (add_sample 1%nat Example.alice_one h) !! 0%nat = h !! 0%nat /\
  snd (add_sample_matching 1%nat Example.alice_one [] h) !! 0%nat = h !! 0%nat.
Proof.
  apply (add_sample_frame [Example.built; Example.filtered] 1%nat 0%nat
           Example.alice_one []).
  lia.
Defined.

Lemma add_sample_appends_witness :
  exists h',
    add_sample 0%nat Example.alice_one [Example.built] = (Ok tt, h') /\
    fst (len 0%nat h') = Ok (Z.of_nat (length (samples Example.built)) + 1) /\
    fst (getitem 0%nat (Index (-1)) h') = Ok (One Example.alice_one) /\
    forall (i : nat) x,
      samples Example.built !! i = Some x ->
      fst (getitem 0%nat (Index (Z.of_nat i)) h') = Ok (One x).
Proof.
  apply (add_sample_appends [Example.built] 0%nat Example.built Example.alice_one).
  - reflexivity.
  - apply Meta_init_hashable. repeat constructor.
Defined.

Lemma getitem_reverse_witness :
  fst (getitem 0%nat (Slice None None (Some (-1))) [Example.built]) =
    Ok (Several (rev (samples Example.built))) /\
  forall start stop,
    fst (getitem 0%nat (Slice start stop (Some 0)) [Example.built]) =
    Raise ValueError.
Proof.
  exact (getitem_reverse [Example.built] 0%nat Example.built eq_refl).
Defined.

Lemma plot_with_matplotlib_witness :
  plot Example.all_installed Example.mono 512 384 [] =
  if Nat.eqb (ndim (data (base Example.mono))) 1
  then Raise (NameError "np")
  else Raise (UnboundLocalError "data").
Proof.
  exact (plot_with_matplotlib Example.all_installed Example.mono 512 384 []
           eq_refl).
Defined.
